(** * Provider resolution of [instructor.from_provider]

    A shallow embedding of [instructor/auto_client.py] (and of the optional
    exports of [instructor/__init__.py]) together with the properties of the
    provider-resolution layer that hold, or fail, on that code.

    Python strings are modelled as byte strings ([string]); keyword
    dictionaries as finite maps from names to values; the effects of a call
    (imports, environment reads, warnings, native client constructions) as a
    trace of events produced by a small writer-and-exception monad. *)

From Stdlib Require Import Ascii String.
From stdpp Require Import gmap strings list fin_maps.

Local Open Scope string_scope.

(** ** Python values *)

(** Modelled from the spec: the [Mode] enumeration lives in
    [instructor/mode.py], which is not part of the sources at hand.  The three
    members that [auto_client.py] names are kept; every other member is
    [OTHER_MODE] with its name.  Members of a Python [Enum] are truthy. *)
Inductive Mode : Type :=
  | TOOLS
  | JSON
  | ANTHROPIC_TOOLS
  | OTHER_MODE (name : string).

#[global] Instance Mode_eq_dec : EqDecision Mode.
Proof. solve_decision. Defined.

(** The values a keyword argument may carry.  [VObj] stands for any other
    object (a cache adapter, an HTTP options object, credentials...). *)
Inductive value : Type :=
  | VNone
  | VBool (b : bool)
  | VInt (z : Z)
  | VStr (s : string)
  | VMode (m : Mode)
  | VObj (id : nat).

#[global] Instance value_eq_dec : EqDecision value.
Proof. solve_decision. Defined.

(** Python truth value, as tested by [not x] and [if x]. *)
Definition truthy (v : value) : bool :=
  match v with
  | VNone => false
  | VBool b => b
  | VInt z => negb (Z.eqb z 0)
  | VStr s => negb (String.eqb s "")
  | VMode _ => true
  | VObj _ => true
  end.

(** [dict.pop(key, default)]: the value found (or the default) and the
    dictionary without the key. *)
Definition dict_pop (key : string) (dflt : value) (kwargs : gmap string value)
  : value * gmap string value :=
  (default dflt (kwargs !! key), delete key kwargs).

(** [dict.get(key)]: [None] when the key is absent. *)
Definition dict_get (key : string) (kwargs : gmap string value) : value :=
  default VNone (kwargs !! key).

(** ** Python strings *)

(** [str.lower] on the ASCII range; other bytes are left as they are. *)
Definition lower_ascii (c : ascii) : ascii :=
  let n := nat_of_ascii c in
  if (65 <=? n)%nat && (n <=? 90)%nat then ascii_of_nat (n + 32) else c.

Fixpoint lower (s : string) : string :=
  match s with
  | EmptyString => EmptyString
  | String c s' => String (lower_ascii c) (lower s')
  end.

(** [needle in hay] for strings: some suffix of [hay] starts with [needle]. *)
Fixpoint contains (needle hay : string) : bool :=
  String.prefix needle hay ||
  match hay with
  | EmptyString => false
  | String _ hay' => contains needle hay'
  end.

(** [s.split("/", 1)]: one piece when there is no separator, otherwise the
    text before the first separator and everything after it. *)
Fixpoint split_once (sep : ascii) (s : string) : list string :=
  match s with
  | EmptyString => [EmptyString]
  | String c s' =>
      if Ascii.eqb c sep then [EmptyString; s']
      else match split_once sep s' with
           | hd :: tl => String c hd :: tl
           | [] => [String c EmptyString]
           end
  end.

(** [repr] of a string without quotes, backslashes or control characters,
    which is what every provider token is. *)
Definition repr_str (s : string) : string := "'" ++ s ++ "'".

(** [", ".join(l)]. *)
Fixpoint join (sep : string) (l : list string) : string :=
  match l with
  | [] => ""
  | [x] => x
  | x :: l' => x ++ sep ++ join sep l'
  end.

(** [repr] of a list of such strings, as an f-string renders it. *)
Definition repr_list (l : list string) : string :=
  "[" ++ join ", " (map repr_str l) ++ "]".

(** ** The world a call runs in *)

(** [modules] are the module names an import statement or
    [importlib.util.find_spec] can find; [environ] is [os.environ]. *)
Record world : Type := World {
  modules : gset string;
  environ : gmap string string;
}.

Definition find_spec (w : world) (name : string) : bool :=
  bool_decide (name ∈ modules w).

(** ** Exceptions, events and the monad of a call *)

Inductive exn : Type :=
  | ConfigurationError (msg : string)
  | ImportError (msg : string)
  | ValueError (msg : string)
  | TypeError (msg : string).

Inductive event : Type :=
  | EImport (module : string)
  | EGetenv (var : string)
  | EWarn (category msg : string)
  | EConstruct (cls : string).

Inductive result (A : Type) : Type :=
  | Ok (a : A)
  | Raise (e : exn).
Arguments Ok {A} a.
Arguments Raise {A} e.

(** A computation yields the events it performed, in order, and either a
    value or the exception that ended it. *)
Definition M (A : Type) : Type := list event * result A.

#[global] Instance M_ret : MRet M := fun A a => ([], Ok a).
#[global] Instance M_bind : MBind M := fun A B k m =>
  match m with
  | (t, Ok a) => let '(t', r) := k a in ((t ++ t')%list, r)
  | (t, Raise e) => (t, Raise e)
  end.

Definition emit (e : event) : M unit := ([e], Ok tt).
Definition raise {A : Type} (e : exn) : M A := ([], Raise e).

Definition events {A : Type} (m : M A) : list event := fst m.
Definition outcome {A : Type} (m : M A) : result A := snd m.

(** [try: body except ImportError: handler]. *)
Definition try_except_ImportError {A : Type} (body handler : M A) : M A :=
  match body with
  | (t, Raise (ImportError _)) => let '(t', r) := handler in ((t ++ t')%list, r)
  | _ => body
  end.

(** [try: body except ValueError: handler]. *)
Definition try_except_ValueError {A : Type} (body handler : M A) : M A :=
  match body with
  | (t, Raise (ValueError _)) => let '(t', r) := handler in ((t ++ t')%list, r)
  | _ => body
  end.

(** [import name] (or [from name import ...]) of a third-party module. *)
Definition import_module (w : world) (name : string) : M unit :=
  emit (EImport name);;
  if find_spec w name then mret tt
  else raise (ImportError ("No module named " ++ repr_str name)).

(** An import that cannot fail: the standard library ([os]) and the
    package's own [instructor.exceptions]. *)
Definition import_always (name : string) : M unit := emit (EImport name).

(** The adapter factories that [instructor/__init__.py] defines: [from_openai]
    always, the others only when [find_spec] finds their package. *)
Definition instructor_exports (w : world) (name : string) : bool :=
  if String.eqb name "from_openai" then true
  else if String.eqb name "from_anthropic" then find_spec w "anthropic"
  else if String.eqb name "from_fireworks" then find_spec w "fireworks"
  else if String.eqb name "from_cerebras" then find_spec w "cerebras"
  else if String.eqb name "from_groq" then find_spec w "groq"
  else if String.eqb name "from_mistral" then find_spec w "mistralai"
  else if String.eqb name "from_cohere" then find_spec w "cohere"
  else if String.eqb name "from_bedrock" then find_spec w "boto3"
  else if String.eqb name "from_writer" then find_spec w "writerai"
  else if String.eqb name "from_xai" then find_spec w "xai_sdk"
  else if String.eqb name "from_perplexity" then find_spec w "openai"
  else if String.eqb name "from_genai"
       then find_spec w "google" && find_spec w "google.genai"
  else false.

(** [from instructor import name]. *)
Definition import_from_instructor (w : world) (name : string) : M unit :=
  emit (EImport "instructor");;
  if instructor_exports w name then mret tt
  else raise (ImportError ("cannot import name " ++ repr_str name
                           ++ " from 'instructor'")).

(** [os.environ.get(var)] and [os.environ.get(var, default)]. *)
Definition environ_get (w : world) (var : string) : M value :=
  emit (EGetenv var);; mret (from_option VStr VNone (environ w !! var)).

Definition environ_get_default (w : world) (var : string) (dflt : value)
  : M value :=
  emit (EGetenv var);; mret (from_option VStr dflt (environ w !! var)).

(** [warnings.warn(msg, DeprecationWarning, stacklevel=2)] under the default
    warning filters: the warning is recorded and execution goes on. *)
Definition warn_deprecated (msg : string) : M unit :=
  emit (EWarn "DeprecationWarning" msg).

(** ** Calls into the provider SDKs and the adapter factories *)

(** A call [f(..., k1=v1, ..., **kwargs)] raises [TypeError] when a keyword
    written in the call is also a key of [kwargs]. *)
Definition duplicate_keyword (keywords : list (string * value))
    (kwargs : gmap string value) : option string :=
  List.find (fun k => bool_decide (is_Some (kwargs !! k))) (map fst keywords).

Definition check_keywords (callee : string) (keywords : list (string * value))
    (kwargs : gmap string value) : M unit :=
  match duplicate_keyword keywords kwargs with
  | Some k => raise (TypeError (callee ++ "() got multiple values for keyword argument "
                                ++ repr_str k))
  | None => mret tt
  end.

(** A native SDK client, described by the constructor call that made it. *)
Record native_client : Type := NativeClient {
  nc_class : string;
  nc_args : list value;
  nc_keywords : list (string * value);
  nc_kwargs : gmap string value;
}.

(** The call handed to an adapter factory [from_<provider>]; the factory's
    result is returned to the caller unchanged, so the call stands for it.
    Constructors and factories are external: once called with well-formed
    arguments they are taken to return. *)
Record adapter_call : Type := AdapterCall {
  ac_factory : string;
  ac_client : native_client;
  ac_keywords : list (string * value);
  ac_kwargs : gmap string value;
}.

Definition construct (cls : string) (args : list value)
    (keywords : list (string * value)) (kwargs : gmap string value)
  : M native_client :=
  check_keywords cls keywords kwargs;;
  emit (EConstruct cls);;
  mret (NativeClient cls args keywords kwargs).

Definition call_adapter (factory : string) (client : native_client)
    (keywords : list (string * value)) (kwargs : gmap string value)
  : M adapter_call :=
  check_keywords factory keywords kwargs;;
  mret (AdapterCall factory client keywords kwargs).

(** The keyword arguments a callee receives, written ones and [kwargs]
    together. *)
Definition effective (keywords : list (string * value))
    (kwargs : gmap string value) : gmap string value :=
  list_to_map keywords ∪ kwargs.

Definition nc_field (c : native_client) (k : string) : option value :=
  effective (nc_keywords c) (nc_kwargs c) !! k.

Definition ac_field (c : adapter_call) (k : string) : option value :=
  effective (ac_keywords c) (ac_kwargs c) !! k.

(** [mode if mode else dflt]; an enum member is never falsy. *)
Definition mode_or (mode : option Mode) (dflt : Mode) : Mode :=
  default dflt mode.

(** ** [auto_client.py] *)

Definition dquote : string := String (ascii_of_nat 34) EmptyString.

Definition supported_providers : list string :=
  [ "openai"; "azure_openai"; "anthropic"; "google"; "generative-ai";
    "vertexai"; "mistral"; "cohere"; "perplexity"; "groq"; "writer";
    "bedrock"; "cerebras"; "fireworks"; "ollama"; "xai" ].

Definition format_message : string :=
  "Model string must be in format " ++ dquote ++ "provider/model-name" ++ dquote
  ++ " (e.g. " ++ dquote ++ "openai/gpt-4" ++ dquote ++ " or " ++ dquote
  ++ "anthropic/claude-3-sonnet" ++ dquote ++ ")".

(** [from instructor.exceptions import ConfigurationError] followed by
    [raise ConfigurationError(msg)]. *)
Definition raise_ConfigurationError {A : Type} (msg : string) : M A :=
  import_always "instructor.exceptions";; raise (ConfigurationError msg).

(** [provider, model_name = parts]: unpacking anything but two items is a
    [ValueError]. *)
Definition unpack2 (parts : list string) : M (string * string) :=
  match parts with
  | [a; b] => mret (a, b)
  | [] | [_] => raise (ValueError "not enough values to unpack (expected 2, got 1)")
  | _ => raise (ValueError "too many values to unpack (expected 2)")
  end.

(** Lines 117-125. *)
Definition parse_model (model : string) : M (string * string) :=
  try_except_ValueError
    (unpack2 (split_once "/"%char model))
    (raise_ConfigurationError format_message).

Section Providers.

Variable w : world.
Variable async_client : bool.
Variable model_name : string.
Variable mode : option Mode.

(** Lines 127-145. *)
Definition provider_openai (kwargs : gmap string value) : M adapter_call :=
  try_except_ImportError
    (import_module w "openai";;
     import_from_instructor w "from_openai";;
     client ← construct (if async_client then "openai.AsyncOpenAI"
                         else "openai.OpenAI") [] [] ∅;
     call_adapter "from_openai" client
       [("model", VStr model_name); ("mode", VMode (mode_or mode TOOLS))]
       kwargs)
    (raise_ConfigurationError
       ("The openai package is required to use the OpenAI provider. "
        ++ "Install it with `pip install openai`.")).

(** Lines 147-201. *)
Definition provider_azure_openai (kwargs : gmap string value)
  : M adapter_call :=
  try_except_ImportError
    (import_always "os";;
     import_module w "openai";;
     import_from_instructor w "from_openai";;
     env_key ← environ_get w "AZURE_OPENAI_API_KEY";
     let '(api_key, kwargs) := dict_pop "api_key" env_key kwargs in
     env_endpoint ← environ_get w "AZURE_OPENAI_ENDPOINT";
     let '(azure_endpoint, kwargs) :=
       dict_pop "azure_endpoint" env_endpoint kwargs in
     let '(api_version, kwargs) :=
       dict_pop "api_version" (VStr "2024-02-01") kwargs in
     if negb (truthy api_key) then
       raise_ConfigurationError
         ("AZURE_OPENAI_API_KEY is not set. "
          ++ "Set it with `export AZURE_OPENAI_API_KEY=<your-api-key>` or pass it as kwarg api_key=<your-api-key>")
     else if negb (truthy azure_endpoint) then
       raise_ConfigurationError
         ("AZURE_OPENAI_ENDPOINT is not set. "
          ++ "Set it with `export AZURE_OPENAI_ENDPOINT=<your-endpoint>` or pass it as kwarg azure_endpoint=<your-endpoint>")
     else
       client ← construct (if async_client then "openai.AsyncAzureOpenAI"
                           else "openai.AzureOpenAI") []
                  [("api_key", api_key); ("api_version", api_version);
                   ("azure_endpoint", azure_endpoint)] ∅;
       call_adapter "from_openai" client
         [("model", VStr model_name); ("mode", VMode (mode_or mode TOOLS))]
         kwargs)
    (raise_ConfigurationError
       ("The openai package is required to use the Azure OpenAI provider. "
        ++ "Install it with `pip install openai`.")).

(** Lines 203-224. *)
Definition provider_anthropic (kwargs : gmap string value)
  : M adapter_call :=
  try_except_ImportError
    (import_module w "anthropic";;
     import_from_instructor w "from_anthropic";;
     client ← construct (if async_client then "anthropic.AsyncAnthropic"
                         else "anthropic.Anthropic") [] [] ∅;
     let '(max_tokens, kwargs) := dict_pop "max_tokens" (VInt 4096) kwargs in
     call_adapter "from_anthropic" client
       [("model", VStr model_name);
        ("mode", VMode (mode_or mode ANTHROPIC_TOOLS));
        ("max_tokens", max_tokens)]
       kwargs)
    (raise (ImportError
       ("The anthropic package is required to use the Anthropic provider. "
        ++ "Install it with `pip install anthropic`."))).

(** The loop of lines 239-248: each listed key present in [kwargs] moves to
    [client_kwargs]. *)
Definition extract_client_kwargs (keys : list string)
    (kwargs : gmap string value) : gmap string value * gmap string value :=
  fold_left
    (fun '(client_kwargs, kwargs) key =>
       match kwargs !! key with
       | Some v => (<[key := v]> client_kwargs, delete key kwargs)
       | None => (client_kwargs, kwargs)
       end)
    keys (∅, kwargs).

(** The keys of lines 240-246. *)
Definition google_client_keys : list string :=
  ["debug_config"; "http_options"; "credentials"; "project"; "location"].

(** Lines 226-264. *)
Definition provider_google (kwargs : gmap string value) : M adapter_call :=
  try_except_ImportError
    (import_module w "google.genai";;
     import_from_instructor w "from_genai";;
     import_always "os";;
     let '(vertexai_flag, kwargs) :=
       dict_pop "vertexai" (VBool false) kwargs in
     env_key ← environ_get w "GOOGLE_API_KEY";
     let '(api_key, kwargs) := dict_pop "api_key" env_key kwargs in
     let '(client_kwargs, kwargs) :=
       extract_client_kwargs google_client_keys kwargs in
     client ← construct "google.genai.Client" []
                [("vertexai", vertexai_flag); ("api_key", api_key)]
                client_kwargs;
     if async_client then
       call_adapter "from_genai" client
         [("use_async", VBool true); ("model", VStr model_name)] kwargs
     else
       call_adapter "from_genai" client [("model", VStr model_name)] kwargs)
    (raise (ImportError
       ("The google-genai package is required to use the Google provider. "
        ++ "Install it with `pip install google-genai`."))).

(** Lines 266-289. *)
Definition provider_mistral (kwargs : gmap string value) : M adapter_call :=
  try_except_ImportError
    (import_module w "mistralai";;
     import_from_instructor w "from_mistral";;
     import_always "os";;
     env_key ← environ_get w "MISTRAL_API_KEY";
     if truthy env_key then
       api_key ← environ_get w "MISTRAL_API_KEY";
       client ← construct "mistralai.Mistral" [] [("api_key", api_key)] ∅;
       if async_client then
         call_adapter "from_mistral" client
           [("model", VStr model_name); ("use_async", VBool true)] kwargs
       else
         call_adapter "from_mistral" client [("model", VStr model_name)]
           kwargs
     else
       raise (ValueError
         ("MISTRAL_API_KEY is not set. "
          ++ "Set it with `export MISTRAL_API_KEY=<your-api-key>`.")))
    (raise (ImportError
       ("The mistralai package is required to use the Mistral provider. "
        ++ "Install it with `pip install mistralai`."))).

(** Lines 291-303. *)
Definition provider_cohere (kwargs : gmap string value) : M adapter_call :=
  try_except_ImportError
    (import_module w "cohere";;
     import_from_instructor w "from_cohere";;
     client ← construct (if async_client then "cohere.AsyncClient"
                         else "cohere.Client") [] [] ∅;
     call_adapter "from_cohere" client [] kwargs)
    (raise (ImportError
       ("The cohere package is required to use the Cohere provider. "
        ++ "Install it with `pip install cohere`."))).

(** Lines 305-336. *)
Definition provider_perplexity (kwargs : gmap string value)
  : M adapter_call :=
  try_except_ImportError
    (import_module w "openai";;
     import_from_instructor w "from_perplexity";;
     import_always "os";;
     env_key ← environ_get w "PERPLEXITY_API_KEY";
     api_key ←
       (if truthy env_key then environ_get w "PERPLEXITY_API_KEY"
        else if truthy (dict_get "api_key" kwargs)
             then mret (dict_get "api_key" kwargs)
        else raise (ValueError
               ("PERPLEXITY_API_KEY is not set. "
                ++ "Set it with `export PERPLEXITY_API_KEY=<your-api-key>` or pass it as a kwarg api_key=<your-api-key>")));
     client ← construct (if async_client then "openai.AsyncOpenAI"
                         else "openai.OpenAI") []
                [("api_key", api_key);
                 ("base_url", VStr "https://api.perplexity.ai")] ∅;
     call_adapter "from_perplexity" client [("model", VStr model_name)]
       kwargs)
    (raise (ImportError
       ("The openai package is required to use the Perplexity provider. "
        ++ "Install it with `pip install openai`."))).

(** Lines 338-350. *)
Definition provider_groq (kwargs : gmap string value) : M adapter_call :=
  try_except_ImportError
    (import_module w "groq";;
     import_from_instructor w "from_groq";;
     client ← construct (if async_client then "groq.AsyncGroq"
                         else "groq.Groq") [] [] ∅;
     call_adapter "from_groq" client [("model", VStr model_name)] kwargs)
    (raise (ImportError
       ("The groq package is required to use the Groq provider. "
        ++ "Install it with `pip install groq`."))).

(** Lines 352-364. *)
Definition provider_writer (kwargs : gmap string value) : M adapter_call :=
  try_except_ImportError
    (import_module w "writerai";;
     import_from_instructor w "from_writer";;
     client ← construct (if async_client then "writerai.AsyncWriter"
                         else "writerai.Writer") [] [] ∅;
     call_adapter "from_writer" client [("model", VStr model_name)] kwargs)
    (raise (ImportError
       ("The writerai package is required to use the Writer provider. "
        ++ "Install it with `pip install writer-sdk`."))).

(** Lines 366-378. *)
Definition provider_bedrock (kwargs : gmap string value) : M adapter_call :=
  try_except_ImportError
    (import_module w "boto3";;
     import_from_instructor w "from_bedrock";;
     client ← construct "boto3.client" [VStr "bedrock-runtime"] [] ∅;
     call_adapter "from_bedrock" client [] kwargs)
    (raise (ImportError
       ("The boto3 package is required to use the AWS Bedrock provider. "
        ++ "Install it with `pip install boto3`."))).

(** Lines 380-392. *)
Definition provider_cerebras (kwargs : gmap string value) : M adapter_call :=
  try_except_ImportError
    (import_module w "cerebras.cloud.sdk";;
     import_from_instructor w "from_cerebras";;
     client ← construct (if async_client then "cerebras.cloud.sdk.AsyncCerebras"
                         else "cerebras.cloud.sdk.Cerebras") [] [] ∅;
     call_adapter "from_cerebras" client [("model", VStr model_name)] kwargs)
    (raise (ImportError
       ("The cerebras package is required to use the Cerebras provider. "
        ++ "Install it with `pip install cerebras`."))).

(** Lines 394-406. *)
Definition provider_fireworks (kwargs : gmap string value)
  : M adapter_call :=
  try_except_ImportError
    (import_module w "fireworks.client";;
     import_from_instructor w "from_fireworks";;
     client ← construct (if async_client then "fireworks.client.AsyncFireworks"
                         else "fireworks.client.Fireworks") [] [] ∅;
     call_adapter "from_fireworks" client [("model", VStr model_name)]
       kwargs)
    (raise (ImportError
       ("The fireworks-ai package is required to use the Fireworks provider. "
        ++ "Install it with `pip install fireworks-ai`."))).

(** Lines 408-449. *)
Definition provider_vertexai (kwargs : gmap string value) : M adapter_call :=
  warn_deprecated
    ("The 'vertexai' provider is deprecated. Use 'google' provider with vertexai=True instead. "
     ++ "Example: instructor.from_provider('google/gemini-pro', vertexai=True)");;
  try_except_ImportError
    (import_module w "google.genai";;
     import_from_instructor w "from_genai";;
     import_always "os";;
     env_project ← environ_get w "GOOGLE_CLOUD_PROJECT";
     let '(project, kwargs) := dict_pop "project" env_project kwargs in
     env_location ←
       environ_get_default w "GOOGLE_CLOUD_LOCATION" (VStr "us-central1");
     let '(location, kwargs) := dict_pop "location" env_location kwargs in
     if negb (truthy project) then
       raise (ValueError
         ("Project ID is required for Vertex AI. "
          ++ "Set it with `export GOOGLE_CLOUD_PROJECT=<your-project-id>` "
          ++ "or pass it as kwarg project=<your-project-id>"))
     else
       client ← construct "google.genai.Client" []
                  [("vertexai", VBool true); ("project", project);
                   ("location", location)] kwargs;
       let kwargs := <["model" := VStr model_name]> kwargs in
       if async_client then
         call_adapter "from_genai" client [("use_async", VBool true)] kwargs
       else
         call_adapter "from_genai" client [] kwargs)
    (raise (ImportError
       ("The google-genai package is required to use the VertexAI provider. "
        ++ "Install it with `pip install google-genai`."))).

(** Lines 451-476. *)
Definition provider_generative_ai (kwargs : gmap string value)
  : M adapter_call :=
  warn_deprecated
    ("The 'generative-ai' provider is deprecated. Use 'google' provider instead. "
     ++ "Example: instructor.from_provider('google/gemini-pro')");;
  try_except_ImportError
    (import_module w "google.genai";;
     import_from_instructor w "from_genai";;
     import_always "os";;
     env_key ← environ_get w "GOOGLE_API_KEY";
     let '(api_key, kwargs) := dict_pop "api_key" env_key kwargs in
     client ← construct "google.genai.Client" []
                [("vertexai", VBool false); ("api_key", api_key)] ∅;
     if async_client then
       call_adapter "from_genai" client
         [("use_async", VBool true); ("model", VStr model_name)] kwargs
     else
       call_adapter "from_genai" client [("model", VStr model_name)] kwargs)
    (raise (ImportError
       ("The google-genai package is required to use the Google GenAI provider. "
        ++ "Install it with `pip install google-genai`."))).

(** Lines 494-505. *)
Definition tool_capable_models : list string :=
  [ "llama3.1"; "llama3.2"; "llama4"; "mistral-nemo"; "firefunction-v2";
    "command-r-plus"; "qwen2.5"; "qwen2.5-coder"; "qwen3"; "devstral" ].

(** Lines 508-511: [any(capable in model_name.lower() for capable in ...)]. *)
Definition supports_tools : bool :=
  existsb (fun capable_model => contains capable_model (lower model_name))
    tool_capable_models.

(** Lines 478-529. *)
Definition provider_ollama (kwargs : gmap string value) : M adapter_call :=
  try_except_ImportError
    (import_module w "openai";;
     import_from_instructor w "from_openai";;
     let '(base_url, kwargs) :=
       dict_pop "base_url" (VStr "http://localhost:11434/v1") kwargs in
     let '(api_key, kwargs) := dict_pop "api_key" (VStr "ollama") kwargs in
     client ← construct (if async_client then "openai.AsyncOpenAI"
                         else "openai.OpenAI") []
                [("base_url", base_url); ("api_key", api_key)] ∅;
     let default_mode := if supports_tools then TOOLS else JSON in
     call_adapter "from_openai" client
       [("model", VStr model_name); ("mode", VMode (mode_or mode default_mode))]
       kwargs)
    (raise_ConfigurationError
       ("The openai package is required to use the Ollama provider. "
        ++ "Install it with `pip install openai`.")).

(** Lines 531-550. *)
Definition provider_xai (kwargs : gmap string value) : M adapter_call :=
  try_except_ImportError
    (import_module w "xai_sdk.sync.client";;
     import_module w "xai_sdk.aio.client";;
     import_from_instructor w "from_xai";;
     client ← construct (if async_client then "xai_sdk.aio.client.Client"
                         else "xai_sdk.sync.client.Client") [] [] ∅;
     call_adapter "from_xai" client
       [("mode", VMode (mode_or mode JSON)); ("model", VStr model_name)]
       kwargs)
    (raise_ConfigurationError
       ("The xai-sdk package is required to use the xAI provider. "
        ++ "Install it with `pip install xai-sdk`.")).

(** Lines 552-558. *)
Definition unsupported_message (provider : string) : string :=
  "Unsupported provider: " ++ provider ++ ". "
  ++ "Supported providers are: " ++ repr_list supported_providers.

Definition provider_unsupported (provider : string) : M adapter_call :=
  raise_ConfigurationError (unsupported_message provider).

(** The [if provider == ... elif ...] chain of lines 127-558. *)
Definition dispatch (provider : string) (kwargs : gmap string value)
  : M adapter_call :=
  if String.eqb provider "openai" then provider_openai kwargs
  else if String.eqb provider "azure_openai" then provider_azure_openai kwargs
  else if String.eqb provider "anthropic" then provider_anthropic kwargs
  else if String.eqb provider "google" then provider_google kwargs
  else if String.eqb provider "mistral" then provider_mistral kwargs
  else if String.eqb provider "cohere" then provider_cohere kwargs
  else if String.eqb provider "perplexity" then provider_perplexity kwargs
  else if String.eqb provider "groq" then provider_groq kwargs
  else if String.eqb provider "writer" then provider_writer kwargs
  else if String.eqb provider "bedrock" then provider_bedrock kwargs
  else if String.eqb provider "cerebras" then provider_cerebras kwargs
  else if String.eqb provider "fireworks" then provider_fireworks kwargs
  else if String.eqb provider "vertexai" then provider_vertexai kwargs
  else if String.eqb provider "generative-ai"
       then provider_generative_ai kwargs
  else if String.eqb provider "ollama" then provider_ollama kwargs
  else if String.eqb provider "xai" then provider_xai kwargs
  else provider_unsupported provider.

End Providers.

(** Lines 113-115: [if cache is not None: kwargs["cache"] = cache]. *)
Definition with_cache (cache : value) (kwargs : gmap string value)
  : gmap string value :=
  match cache with
  | VNone => kwargs
  | _ => <["cache" := cache]> kwargs
  end.

(** [from_provider(model, async_client, cache, mode, **kwargs)], lines 70-558. *)
Definition from_provider (w : world) (model : string) (async_client : bool)
    (cache : value) (mode : option Mode) (kwargs : gmap string value)
  : M adapter_call :=
  let kwargs := with_cache cache kwargs in
  '(provider, model_name) ← parse_model model;
  dispatch w async_client model_name mode provider kwargs.

(** Python binds the keywords [model], [async_client], [cache] and [mode] to
    the parameters of [from_provider], so [**kwargs] never holds them. *)
Definition kwargs_bound (kwargs : gmap string value) : Prop :=
  kwargs !! "model" = None ∧ kwargs !! "async_client" = None ∧
  kwargs !! "cache" = None ∧ kwargs !! "mode" = None.

(** ** Observations on a call *)

(** [raises_only P m]: if [m] ends in an exception, the exception satisfies
    [P]. *)
Definition raises_only {A : Type} (P : exn → Prop) (m : M A) : Prop :=
  ∀ e, outcome m = Raise e → P e.

(** The exception is the format error of the identifier parser. *)
Definition is_format_error (e : exn) : bool :=
  match e with
  | ConfigurationError msg => String.eqb msg format_message
  | _ => false
  end.

(** An event other than the import of the package's own exception module:
    a dependency import, an environment read, a warning or the construction
    of a native client. *)
Definition side_effect (ev : event) : bool :=
  match ev with
  | EImport m => negb (String.eqb m "instructor.exceptions")
  | _ => true
  end.

(** The call ended in [ConfigurationError], or in [ImportError]. *)
Definition is_ConfigurationError (r : result adapter_call) : bool :=
  match r with Raise (ConfigurationError _) => true | _ => false end.

Definition is_import_error (r : result adapter_call) : bool :=
  match r with Raise (ImportError _) => true | _ => false end.

(** The event is a warning. *)
Definition is_warning (ev : event) : bool :=
  match ev with EWarn _ _ => true | _ => false end.

(** The warnings a computation emitted, in order. *)
Definition warnings {A : Type} (m : M A) : list event :=
  List.filter is_warning (events m).

(** [silent m]: no event of [m] is a warning. *)
Definition silent {A : Type} (m : M A) : Prop :=
  Forall (λ ev, is_warning ev = false) (events m).

(** ** Further observations, and tables read off the branches *)

(** [returns_only Q m]: if [m] returns, its value satisfies [Q]. *)
Definition returns_only {A : Type} (Q : A → Prop) (m : M A) : Prop :=
  ∀ a, outcome m = Ok a → Q a.

(** [emits_only Q m]: every event of [m] satisfies [Q]. *)
Definition emits_only {A : Type} (Q : event → bool) (m : M A) : Prop :=
  Forall (λ ev, Q ev = true) (events m).

(** The package named after [pip install] in each branch's handler of
    [ImportError]. *)
Definition pip_package (provider : string) : string :=
  if String.eqb provider "openai" then "openai"
  else if String.eqb provider "azure_openai" then "openai"
  else if String.eqb provider "anthropic" then "anthropic"
  else if String.eqb provider "google" then "google-genai"
  else if String.eqb provider "mistral" then "mistralai"
  else if String.eqb provider "cohere" then "cohere"
  else if String.eqb provider "perplexity" then "openai"
  else if String.eqb provider "groq" then "groq"
  else if String.eqb provider "writer" then "writer-sdk"
  else if String.eqb provider "bedrock" then "boto3"
  else if String.eqb provider "cerebras" then "cerebras"
  else if String.eqb provider "fireworks" then "fireworks-ai"
  else if String.eqb provider "vertexai" then "google-genai"
  else if String.eqb provider "generative-ai" then "google-genai"
  else if String.eqb provider "ollama" then "openai"
  else if String.eqb provider "xai" then "xai-sdk"
  else "".

(** The third-party module each branch imports first. *)
Definition sdk_module (provider : string) : string :=
  if String.eqb provider "openai" then "openai"
  else if String.eqb provider "azure_openai" then "openai"
  else if String.eqb provider "anthropic" then "anthropic"
  else if String.eqb provider "google" then "google.genai"
  else if String.eqb provider "mistral" then "mistralai"
  else if String.eqb provider "cohere" then "cohere"
  else if String.eqb provider "perplexity" then "openai"
  else if String.eqb provider "groq" then "groq"
  else if String.eqb provider "writer" then "writerai"
  else if String.eqb provider "bedrock" then "boto3"
  else if String.eqb provider "cerebras" then "cerebras.cloud.sdk"
  else if String.eqb provider "fireworks" then "fireworks.client"
  else if String.eqb provider "vertexai" then "google.genai"
  else if String.eqb provider "generative-ai" then "google.genai"
  else if String.eqb provider "ollama" then "openai"
  else if String.eqb provider "xai" then "xai_sdk.sync.client"
  else "".

(** The branches whose handler of [ImportError] raises
    [ConfigurationError]; the others raise a new [ImportError]. *)
Definition configuration_error_on_import : list string :=
  ["openai"; "azure_openai"; "ollama"; "xai"].

(** The class (or, for bedrock, the function) each branch calls to build its
    native client. *)
Definition native_class (provider : string) (async_client : bool) : string :=
  if String.eqb provider "openai"
  then (if async_client then "openai.AsyncOpenAI" else "openai.OpenAI")
  else if String.eqb provider "azure_openai"
  then (if async_client then "openai.AsyncAzureOpenAI" else "openai.AzureOpenAI")
  else if String.eqb provider "anthropic"
  then (if async_client then "anthropic.AsyncAnthropic" else "anthropic.Anthropic")
  else if String.eqb provider "google" then "google.genai.Client"
  else if String.eqb provider "mistral" then "mistralai.Mistral"
  else if String.eqb provider "cohere"
  then (if async_client then "cohere.AsyncClient" else "cohere.Client")
  else if String.eqb provider "perplexity"
  then (if async_client then "openai.AsyncOpenAI" else "openai.OpenAI")
  else if String.eqb provider "groq"
  then (if async_client then "groq.AsyncGroq" else "groq.Groq")
  else if String.eqb provider "writer"
  then (if async_client then "writerai.AsyncWriter" else "writerai.Writer")
  else if String.eqb provider "bedrock" then "boto3.client"
  else if String.eqb provider "cerebras"
  then (if async_client then "cerebras.cloud.sdk.AsyncCerebras"
        else "cerebras.cloud.sdk.Cerebras")
  else if String.eqb provider "fireworks"
  then (if async_client then "fireworks.client.AsyncFireworks"
        else "fireworks.client.Fireworks")
  else if String.eqb provider "vertexai" then "google.genai.Client"
  else if String.eqb provider "generative-ai" then "google.genai.Client"
  else if String.eqb provider "ollama"
  then (if async_client then "openai.AsyncOpenAI" else "openai.OpenAI")
  else if String.eqb provider "xai"
  then (if async_client then "xai_sdk.aio.client.Client"
        else "xai_sdk.sync.client.Client")
  else "".

(** The adapter factory each branch hands its client to. *)
Definition adapter_factory (provider : string) : string :=
  if String.eqb provider "openai" then "from_openai"
  else if String.eqb provider "azure_openai" then "from_openai"
  else if String.eqb provider "anthropic" then "from_anthropic"
  else if String.eqb provider "google" then "from_genai"
  else if String.eqb provider "mistral" then "from_mistral"
  else if String.eqb provider "cohere" then "from_cohere"
  else if String.eqb provider "perplexity" then "from_perplexity"
  else if String.eqb provider "groq" then "from_groq"
  else if String.eqb provider "writer" then "from_writer"
  else if String.eqb provider "bedrock" then "from_bedrock"
  else if String.eqb provider "cerebras" then "from_cerebras"
  else if String.eqb provider "fireworks" then "from_fireworks"
  else if String.eqb provider "vertexai" then "from_genai"
  else if String.eqb provider "generative-ai" then "from_genai"
  else if String.eqb provider "ollama" then "from_openai"
  else if String.eqb provider "xai" then "from_xai"
  else "".

(** The default written after [mode if mode else] in the five branches that
    pass a mode to their adapter factory. *)
Definition branch_default_mode (provider model_name : string) : option Mode :=
  if String.eqb provider "openai" then Some TOOLS
  else if String.eqb provider "azure_openai" then Some TOOLS
  else if String.eqb provider "anthropic" then Some ANTHROPIC_TOOLS
  else if String.eqb provider "ollama"
  then Some (if supports_tools model_name then TOOLS else JSON)
  else if String.eqb provider "xai" then Some JSON
  else None.

(** The environment variables named in the [os.environ.get] calls of each
    branch. *)
Definition branch_variables (provider : string) : list string :=
  if String.eqb provider "azure_openai"
  then ["AZURE_OPENAI_API_KEY"; "AZURE_OPENAI_ENDPOINT"]
  else if String.eqb provider "google" then ["GOOGLE_API_KEY"]
  else if String.eqb provider "generative-ai" then ["GOOGLE_API_KEY"]
  else if String.eqb provider "mistral" then ["MISTRAL_API_KEY"]
  else if String.eqb provider "perplexity" then ["PERPLEXITY_API_KEY"]
  else if String.eqb provider "vertexai"
  then ["GOOGLE_CLOUD_PROJECT"; "GOOGLE_CLOUD_LOCATION"]
  else [].

(** The tokens whose branch starts with a deprecation warning. *)
Definition deprecated_providers : list string := ["vertexai"; "generative-ai"].

(** The event is not an environment read, or reads one of [vars]. *)
Definition reads_only (vars : list string) (ev : event) : bool :=
  match ev with
  | EGetenv var => bool_decide (var ∈ vars)
  | _ => true
  end.

(** The event is not the construction of a native client. *)
Definition builds_no_client (ev : event) : bool :=
  match ev with EConstruct _ => false | _ => true end.


(** The event is an import or a warning. *)
Definition imports_or_warns (ev : event) : bool :=
  match ev with EImport _ | EWarn _ _ => true | _ => false end.


(** The adapter call hands [from_genai] a [google.genai.Client] configured
    for Vertex AI with this project and location, together with this model
    name and this [use_async]. *)
Definition vertex_call (project location : value) (model_name : string)
    (use_async : option value) (call : adapter_call) : Prop :=
  ac_factory call = "from_genai" ∧
  nc_class (ac_client call) = "google.genai.Client" ∧
  nc_field (ac_client call) "vertexai" = Some (VBool true) ∧
  nc_field (ac_client call) "project" = Some project ∧
  nc_field (ac_client call) "location" = Some location ∧
  ac_field call "model" = Some (VStr model_name) ∧
  ac_field call "use_async" = use_async.

(** ** Worlds and arguments used in the examples *)

(** Every optional SDK installed. *)
Definition all_installed : gset string :=
  {[ "openai"; "anthropic"; "google"; "google.genai"; "mistralai"; "cohere";
     "groq"; "writerai"; "boto3"; "cerebras"; "cerebras.cloud.sdk";
     "fireworks"; "fireworks.client"; "xai_sdk"; "xai_sdk.sync.client";
     "xai_sdk.aio.client" ]}.

(** A developer's machine: the SDKs find the keys they read on their own,
    and none of the variables that [from_provider] reads is set. *)
Definition sdk_world : world :=
  World all_installed
    {[ "OPENAI_API_KEY" := "sk-test"; "ANTHROPIC_API_KEY" := "sk-ant-test";
       "GROQ_API_KEY" := "gsk-test" ]}.

(** The same with a Perplexity key, or a Google Cloud project, in the
    environment. *)
Definition perplexity_world : world :=
  World all_installed (<["PERPLEXITY_API_KEY" := "env-key"]> (environ sdk_world)).

Definition vertex_world : world :=
  World all_installed (<["GOOGLE_CLOUD_PROJECT" := "my-project"]> (environ sdk_world)).

(** A caller's explicit project and location. *)
Definition vertex_kwargs : gmap string value :=
  {[ "project" := VStr "my-project"; "location" := VStr "europe-west1" ]}.

(** * Properties *)

(** ** Strings *)

Lemma prefix_empty (s : string) : String.prefix "" s = true.
Proof. by destruct s. Qed.

Lemma prefix_app (n s : string) : String.prefix n (n ++ s) = true.
Proof.
  induction n as [|c n IH]; simpl; [apply prefix_empty|].
  by destruct (ascii_dec c c).
Qed.

Lemma prefix_refl (s : string) : String.prefix s s = true.
Proof.
  induction s as [|c s IH]; [done|].
  cbn [String.prefix]. by destruct (ascii_dec c c).
Qed.

Lemma prefix_split (n h : string) :
  String.prefix n h = true → ∃ post, h = n ++ post.
Proof.
  revert h; induction n as [|c n IH]; intros h Hp; [by exists h|].
  destruct h as [|d h]; [done|]. cbn [String.prefix] in Hp. revert Hp.
  destruct (ascii_dec c d) as [->|]; [|done].
  intros Hp. destruct (IH _ Hp) as [post ->]. by exists post.
Qed.

Lemma contains_app_r (n pre h : string) :
  contains n h = true → contains n (pre ++ h) = true.
Proof.
  intros H; induction pre as [|c pre IH]; simpl; [done|].
  rewrite IH. apply orb_true_r.
Qed.

Lemma contains_prefix (n h : string) :
  String.prefix n h = true → contains n h = true.
Proof. intros H. destruct h; cbn [contains]; by rewrite H. Qed.

Lemma contains_here (n post : string) : contains n (n ++ post) = true.
Proof. apply contains_prefix, prefix_app. Qed.

(** [contains] is Python's substring test. *)
Lemma contains_spec (n h : string) :
  contains n h = true ↔ ∃ pre post, h = pre ++ n ++ post.
Proof.
  split.
  - induction h as [|c h IH]; cbn [contains]; intros H.
    + rewrite orb_false_r in H. apply prefix_split in H as [post ->].
      by exists "", post.
    + apply orb_true_iff in H as [H|H].
      * apply prefix_split in H as [post ->]. by exists "", post.
      * destruct (IH H) as (pre & post & ->). by exists (String c pre), post.
  - intros (pre & post & ->). apply contains_app_r, contains_here.
Qed.

Lemma contains_sep_cons (c : ascii) (s : string) :
  contains "/" (String c s) = Ascii.eqb c "/" || contains "/" s.
Proof.
  cbn [contains String.prefix]. destruct (ascii_dec "/" c) as [<-|Hne].
  - by rewrite prefix_empty.
  - destruct (Ascii.eqb_spec c "/"%char); [congruence|done].
Qed.

(** Without a separator [split] gives back the one piece. *)
Lemma split_once_absent (s : string) :
  contains "/" s = false → split_once "/" s = [s].
Proof.
  induction s as [|c s IH]; [done|].
  rewrite contains_sep_cons. intros [Hc Hs]%orb_false_iff.
  cbn [split_once]. rewrite Hc, (IH Hs). done.
Qed.

(** With a separator [split] cuts at the first one. *)
Lemma split_once_first (p m : string) :
  contains "/" p = false → split_once "/" (p ++ "/" ++ m) = [p; m].
Proof.
  induction p as [|c p IH]; [done|].
  rewrite contains_sep_cons. intros [Hc Hp]%orb_false_iff.
  change (split_once "/" (String c (p ++ "/" ++ m)) = [String c p; m]).
  cbn [split_once]. by rewrite Hc, (IH Hp).
Qed.

Lemma split_once_present (s : string) :
  contains "/" s = true →
  ∃ p m, s = p ++ "/" ++ m ∧ contains "/" p = false.
Proof.
  induction s as [|c s IH]; [done|].
  rewrite contains_sep_cons. destruct (Ascii.eqb_spec c "/"%char) as [->|Hc].
  - intros _. by exists "", s.
  - cbn [orb]. intros Hs. destruct (IH Hs) as (p & m & -> & Hp).
    exists (String c p), m. split; [done|].
    rewrite contains_sep_cons, Hp.
    by destruct (Ascii.eqb_spec c "/"%char).
Qed.

(** ** The identifier parser *)

Lemma parse_model_absent (model : string) :
  contains "/" model = false →
  parse_model model =
    ([EImport "instructor.exceptions"],
     Raise (ConfigurationError format_message)).
Proof. intros H. unfold parse_model. by rewrite split_once_absent. Qed.

Lemma parse_model_first (p m : string) :
  contains "/" p = false → parse_model (p ++ "/" ++ m) = ([], Ok (p, m)).
Proof. intros H. unfold parse_model. by rewrite split_once_first. Qed.

Lemma from_provider_absent w model async_client cache mode kwargs :
  contains "/" model = false →
  from_provider w model async_client cache mode kwargs =
    ([EImport "instructor.exceptions"],
     Raise (ConfigurationError format_message)).
Proof. intros H. unfold from_provider. by rewrite parse_model_absent. Qed.

Lemma from_provider_first w p m async_client cache mode kwargs :
  contains "/" p = false →
  from_provider w (p ++ "/" ++ m) async_client cache mode kwargs =
    dispatch w async_client m mode p (with_cache cache kwargs).
Proof.
  intros H. unfold from_provider. rewrite parse_model_first by done.
  cbn. by destruct (dispatch _ _ _ _ _ _).
Qed.

(** ** Which exceptions a computation can raise *)

Section RaisesOnly.

Context {A B : Type} (P : exn → Prop).

Lemma raises_only_ret (a : A) : raises_only P (mret a).
Proof. by intros e. Qed.

Lemma raises_only_emit (ev : event) : raises_only P (emit ev).
Proof. by intros e. Qed.

Lemma raises_only_raise (e : exn) : P e → raises_only P (raise (A := A) e).
Proof. intros He e' [= <-]. done. Qed.

Lemma raises_only_bind (m : M A) (k : A → M B) :
  raises_only P m → (∀ a, raises_only P (k a)) → raises_only P (m ≫= k).
Proof.
  intros Hm Hk e. destruct m as [t [a|e']]; cbn.
  - specialize (Hk a e). destruct (k a) as [t' r]. exact Hk.
  - intros [= ->]. by apply Hm.
Qed.

Lemma raises_only_try_ImportError (body handler : M A) :
  raises_only P body → raises_only P handler →
  raises_only P (try_except_ImportError body handler).
Proof.
  intros Hb Hh e. unfold try_except_ImportError.
  destruct body as [t [a|[]]]; try exact (Hb e).
  specialize (Hh e). destruct handler as [t' r]. exact Hh.
Qed.

End RaisesOnly.

Section RaisesOnlyPrimitives.

Context (P : exn → Prop).

Lemma raises_only_import_module w name :
  (∀ msg, P (ImportError msg)) → raises_only P (import_module w name).
Proof.
  intros HP. unfold import_module. apply raises_only_bind.
  - apply raises_only_emit.
  - intros _. destruct (find_spec w name).
    + apply raises_only_ret.
    + apply raises_only_raise, HP.
Qed.

Lemma raises_only_import_from_instructor w name :
  (∀ msg, P (ImportError msg)) →
  raises_only P (import_from_instructor w name).
Proof.
  intros HP. unfold import_from_instructor. apply raises_only_bind.
  - apply raises_only_emit.
  - intros _. destruct (instructor_exports w name).
    + apply raises_only_ret.
    + apply raises_only_raise, HP.
Qed.

Lemma raises_only_environ_get w var : raises_only P (environ_get w var).
Proof. by intros e. Qed.

Lemma raises_only_environ_get_default w var dflt :
  raises_only P (environ_get_default w var dflt).
Proof. by intros e. Qed.

Lemma raises_only_check_keywords callee keywords kwargs :
  (∀ msg, P (TypeError msg)) →
  raises_only P (check_keywords callee keywords kwargs).
Proof.
  intros HP. unfold check_keywords.
  destruct (duplicate_keyword keywords kwargs).
  - apply raises_only_raise, HP.
  - apply raises_only_ret.
Qed.

Lemma raises_only_construct cls args keywords kwargs :
  (∀ msg, P (TypeError msg)) →
  raises_only P (construct cls args keywords kwargs).
Proof.
  intros HP. unfold construct.
  apply raises_only_bind; [by apply raises_only_check_keywords|intros _].
  apply raises_only_bind; [apply raises_only_emit|intros _].
  apply raises_only_ret.
Qed.

Lemma raises_only_call_adapter factory client keywords kwargs :
  (∀ msg, P (TypeError msg)) →
  raises_only P (call_adapter factory client keywords kwargs).
Proof.
  intros HP. unfold call_adapter.
  apply raises_only_bind; [by apply raises_only_check_keywords|intros _].
  apply raises_only_ret.
Qed.

End RaisesOnlyPrimitives.

(** One step of a proof that a branch raises only exceptions in [P]; what is
    left are the [raise] statements of the branch. *)
Ltac raises_step :=
  match goal with
  | |- raises_only _ (try_except_ImportError _ _) =>
      apply raises_only_try_ImportError
  | |- raises_only _ (_ ≫= _) => apply raises_only_bind; [|intros ?]
  | |- raises_only _ (mret _) => apply raises_only_ret
  | |- raises_only _ (emit _) => apply raises_only_emit
  | |- raises_only _ (import_always _) => apply raises_only_emit
  | |- raises_only _ (warn_deprecated _) => apply raises_only_emit
  | |- raises_only _ (import_module _ _) => apply raises_only_import_module
  | |- raises_only _ (import_from_instructor _ _) =>
      apply raises_only_import_from_instructor
  | |- raises_only _ (environ_get _ _) => apply raises_only_environ_get
  | |- raises_only _ (environ_get_default _ _ _) =>
      apply raises_only_environ_get_default
  | |- raises_only _ (construct _ _ _ _) => apply raises_only_construct
  | |- raises_only _ (call_adapter _ _ _ _) => apply raises_only_call_adapter
  | |- raises_only _ (raise_ConfigurationError _) =>
      unfold raise_ConfigurationError
  | |- raises_only _ (raise _) => apply raises_only_raise
  | |- raises_only _ (if ?b then _ else _) => destruct b
  | |- raises_only _ (match ?p with (_, _) => _ end) => destruct p
  end.

Create HintDb providers discriminated.
#[global] Hint Unfold provider_openai provider_azure_openai provider_anthropic
  provider_google provider_mistral provider_cohere provider_perplexity
  provider_groq provider_writer provider_bedrock provider_cerebras
  provider_fireworks provider_vertexai provider_generative_ai provider_ollama
  provider_xai provider_unsupported : providers.

Lemma dispatch_no_format_error w async_client model_name mode provider kwargs :
  raises_only (λ e, is_format_error e = false)
    (dispatch w async_client model_name mode provider kwargs).
Proof.
  unfold dispatch.
  repeat match goal with |- raises_only _ (if ?b then _ else _) => destruct b end;
    autounfold with providers; repeat raises_step; try done.
Qed.

(** An unsupported token falls through the whole chain. *)
Lemma dispatch_unsupported w async_client model_name mode provider kwargs :
  provider ∉ supported_providers →
  dispatch w async_client model_name mode provider kwargs =
    provider_unsupported provider.
Proof.
  intros Hp. unfold dispatch.
  repeat match goal with
    | |- context [String.eqb provider ?s] =>
        destruct (String.eqb_spec provider s) as [->|_];
        [exfalso; apply Hp; unfold supported_providers; repeat constructor|]
    end.
  done.
Qed.

(** ** The identifier parser (C2, C9) *)

(** C9.  An identifier without the "/" separator makes [from_provider] raise
    [ConfigurationError] before anything else happens: the only event of the
    call is the import of the exception class itself, so no dependency is
    imported, no environment variable is read and no client is built. *)
Theorem missing_separator_raises_first w model async_client cache mode kwargs :
  contains "/" model = false →
  outcome (from_provider w model async_client cache mode kwargs) =
    Raise (ConfigurationError format_message) ∧
  events (from_provider w model async_client cache mode kwargs) =
    [EImport "instructor.exceptions"] ∧
  Forall (λ ev, side_effect ev = false)
    (events (from_provider w model async_client cache mode kwargs)).
Proof.
  intros H. rewrite from_provider_absent by done.
  repeat split. by constructor.
Qed.

Lemma missing_separator_raises_first_witness :
  contains "/" "gpt-4" = false ∧
  outcome (from_provider sdk_world "gpt-4" false VNone None ∅) =
    Raise (ConfigurationError format_message).
Proof.
  split; [reflexivity|].
  apply (missing_separator_raises_first sdk_world "gpt-4" false VNone None ∅).
  reflexivity.
Defined.

(** C2, as the specification states it, fails: an identifier with an empty
    model part is split and dispatched like any other, and the call returns
    the adapter's client. *)
Lemma empty_model_part_is_accepted :
  split_once "/" "ollama/" = ["ollama"; ""] ∧
  outcome (from_provider sdk_world "ollama/" false VNone None ∅) =
    Ok (AdapterCall "from_openai"
          (NativeClient "openai.OpenAI" []
             [("base_url", VStr "http://localhost:11434/v1");
              ("api_key", VStr "ollama")] ∅)
          [("model", VStr ""); ("mode", VMode JSON)] ∅) ∧
  ¬ ∃ msg, outcome (from_provider sdk_world "ollama/" false VNone None ∅) =
            Raise (ConfigurationError msg).
Proof.
  split; [reflexivity|]. split; [vm_compute; reflexivity|].
  intros [msg H]. vm_compute in H. discriminate H.
Qed.

(** C2, amended.  [from_provider] splits the identifier at the first "/"
    only and dispatches on the two parts: the text before it is the provider
    token, everything after it the model name.  It raises the
    [ConfigurationError] that describes the "provider/model-name" shape
    exactly when the separator is absent.  With an empty provider part it
    still raises [ConfigurationError], the one for an unsupported provider;
    an empty model part is not checked and is dispatched as the empty model
    name; an identifier that contains "/" never raises the format error. *)
Theorem identifier_split_contract w model async_client cache mode kwargs :
  (∀ p m, contains "/" p = false → split_once "/" (p ++ "/" ++ m) = [p; m]) ∧
  (∀ p m, model = p ++ "/" ++ m → contains "/" p = false →
     parse_model model = ([], Ok (p, m)) ∧
     from_provider w model async_client cache mode kwargs =
       dispatch w async_client m mode p (with_cache cache kwargs)) ∧
  (outcome (from_provider w model async_client cache mode kwargs) =
     Raise (ConfigurationError format_message)
   ↔ contains "/" model = false) ∧
  (∀ m, model = "/" ++ m →
     outcome (from_provider w model async_client cache mode kwargs) =
       Raise (ConfigurationError (unsupported_message ""))) ∧
  (∀ p, model = p ++ "/" → contains "/" p = false →
     from_provider w model async_client cache mode kwargs =
       dispatch w async_client "" mode p (with_cache cache kwargs)) ∧
  contains "provider/model-name" format_message = true.
Proof.
  split; [apply split_once_first|].
  split; [|split; [|split; [|split; [|reflexivity]]]].
  - intros p m -> Hp. split; [by apply parse_model_first|].
    by apply from_provider_first.
  - split.
    + intros H. destruct (contains "/" model) eqn:Hsep; [|done].
      destruct (split_once_present _ Hsep) as (p & m & -> & Hp).
      rewrite from_provider_first in H by done.
      apply dispatch_no_format_error in H. discriminate H.
    + intros H. by rewrite from_provider_absent.
  - intros m ->. change ("/" ++ m) with ("" ++ "/" ++ m).
    rewrite from_provider_first by reflexivity.
    rewrite dispatch_unsupported; [reflexivity|].
    apply (bool_decide_unpack _). vm_compute. exact I.
  - intros p -> Hp. by apply from_provider_first.
Qed.

(** ** The unsupported-provider branch (C8) *)

Lemma unsupported_message_lists_providers provider :
  contains (repr_list supported_providers) (unsupported_message provider) = true.
Proof.
  unfold unsupported_message.
  do 4 apply contains_app_r. apply contains_prefix, prefix_refl.
Qed.

Lemma unsupported_message_names_token provider token :
  contains (repr_str token) (repr_list supported_providers) = true →
  contains (repr_str token) (unsupported_message provider) = true.
Proof. intros H. unfold unsupported_message. by do 4 apply contains_app_r. Qed.

(** C8.  An identifier whose provider token is none of the supported ones
    makes [from_provider] raise [ConfigurationError], and the message ends
    with the literal list of supported provider tokens, the deprecated
    aliases "vertexai" and "generative-ai" among them. *)
Theorem unsupported_provider_lists_tokens w p m async_client cache mode kwargs :
  contains "/" p = false →
  p ∉ supported_providers →
  from_provider w (p ++ "/" ++ m) async_client cache mode kwargs =
    ([EImport "instructor.exceptions"],
     Raise (ConfigurationError (unsupported_message p))) ∧
  contains (repr_list supported_providers) (unsupported_message p) = true ∧
  repr_list supported_providers =
    "['openai', 'azure_openai', 'anthropic', 'google', 'generative-ai', "
    ++ "'vertexai', 'mistral', 'cohere', 'perplexity', 'groq', 'writer', "
    ++ "'bedrock', 'cerebras', 'fireworks', 'ollama', 'xai']" ∧
  Forall (λ token, contains (repr_str token) (unsupported_message p) = true)
    supported_providers ∧
  "vertexai" ∈ supported_providers ∧ "generative-ai" ∈ supported_providers.
Proof.
  intros Hsep Hp. split; [|split; [|split; [|split]]].
  - rewrite from_provider_first, dispatch_unsupported by done. reflexivity.
  - apply unsupported_message_lists_providers.
  - vm_compute. reflexivity.
  - unfold supported_providers at 1.
    repeat (constructor; [apply unsupported_message_names_token; vm_compute; reflexivity|]).
    constructor.
  - unfold supported_providers. split; repeat constructor.
Qed.

Lemma unsupported_provider_lists_tokens_witness :
  contains "/" "foobar" = false ∧
  ("foobar" ∉ supported_providers) ∧
  from_provider sdk_world ("foobar" ++ "/" ++ "x") false VNone None ∅ =
    ([EImport "instructor.exceptions"],
     Raise (ConfigurationError (unsupported_message "foobar"))).
Proof.
  assert (Hsep : contains "/" "foobar" = false) by reflexivity.
  assert (Hp : "foobar" ∉ supported_providers).
  { apply (bool_decide_unpack _). vm_compute. exact I. }
  split; [exact Hsep|]. split; [exact Hp|].
  apply (unsupported_provider_lists_tokens sdk_world "foobar" "x" false VNone
           None ∅ Hsep Hp).
Defined.

(** ** Running the primitives *)

Lemma import_module_ok w name :
  find_spec w name = true → import_module w name = ([EImport name], Ok tt).
Proof. intros H. unfold import_module. cbn. by rewrite H. Qed.

Lemma import_module_missing w name :
  find_spec w name = false →
  import_module w name =
    ([EImport name], Raise (ImportError ("No module named " ++ repr_str name))).
Proof. intros H. unfold import_module. cbn. by rewrite H. Qed.

Lemma import_from_instructor_ok w name :
  instructor_exports w name = true →
  import_from_instructor w name = ([EImport "instructor"], Ok tt).
Proof. intros H. unfold import_from_instructor. cbn. by rewrite H. Qed.

Lemma duplicate_keyword_none keywords (kwargs : gmap string value) :
  Forall (λ kv, kwargs !! kv.1 = None) keywords →
  duplicate_keyword keywords kwargs = None.
Proof.
  unfold duplicate_keyword. induction 1 as [|[k v] keywords Hk _ IH]; [done|].
  cbn in *. by rewrite Hk.
Qed.

Lemma check_keywords_ok callee keywords (kwargs : gmap string value) :
  Forall (λ kv, kwargs !! kv.1 = None) keywords →
  check_keywords callee keywords kwargs = ([], Ok tt).
Proof.
  intros H. unfold check_keywords. by rewrite duplicate_keyword_none.
Qed.

Lemma construct_ok cls args keywords (kwargs : gmap string value) :
  Forall (λ kv, kwargs !! kv.1 = None) keywords →
  construct cls args keywords kwargs =
    ([EConstruct cls], Ok (NativeClient cls args keywords kwargs)).
Proof. intros H. unfold construct. by rewrite check_keywords_ok. Qed.

Lemma construct_plain cls args keywords :
  construct cls args keywords ∅ =
    ([EConstruct cls], Ok (NativeClient cls args keywords ∅)).
Proof. apply construct_ok, Forall_forall. intros ? _. apply lookup_empty. Qed.

Lemma call_adapter_ok factory client keywords (kwargs : gmap string value) :
  Forall (λ kv, kwargs !! kv.1 = None) keywords →
  call_adapter factory client keywords kwargs =
    ([], Ok (AdapterCall factory client keywords kwargs)).
Proof. intros H. unfold call_adapter. by rewrite check_keywords_ok. Qed.

Lemma try_except_ImportError_ok {A : Type} (body handler : M A) t a :
  body = (t, Ok a) → try_except_ImportError body handler = (t, Ok a).
Proof. by intros ->. Qed.

Lemma with_cache_lookup_ne cache (kwargs : gmap string value) k :
  k ≠ "cache" → with_cache cache kwargs !! k = kwargs !! k.
Proof.
  intros Hk. destruct cache; cbn [with_cache]; try done;
    by rewrite lookup_insert_ne.
Qed.

(** Unfolds the monad, leaving the primitives that inspect the world or the
    keyword dictionary folded. *)
Ltac run :=
  cbn [mbind M_bind mret M_ret emit raise import_always warn_deprecated
       environ_get environ_get_default raise_ConfigurationError dict_pop
       events outcome fst snd app].

(** ** The Anthropic branch (C10) *)

Lemma provider_anthropic_runs w async_client model_name mode
    (kwargs : gmap string value) :
  find_spec w "anthropic" = true →
  kwargs !! "model" = None → kwargs !! "mode" = None →
  provider_anthropic w async_client model_name mode kwargs =
    ([EImport "anthropic"; EImport "instructor";
      EConstruct (if async_client then "anthropic.AsyncAnthropic"
                  else "anthropic.Anthropic")],
     Ok (AdapterCall "from_anthropic"
           (NativeClient (if async_client then "anthropic.AsyncAnthropic"
                          else "anthropic.Anthropic") [] [] ∅)
           [("model", VStr model_name);
            ("mode", VMode (mode_or mode ANTHROPIC_TOOLS));
            ("max_tokens", default (VInt 4096) (kwargs !! "max_tokens"))]
           (delete "max_tokens" kwargs))).
Proof.
  intros Hdep Hmodel Hmode. unfold provider_anthropic.
  apply try_except_ImportError_ok.
  rewrite import_module_ok by done. run.
  rewrite import_from_instructor_ok by done. run.
  rewrite construct_plain. run.
  rewrite call_adapter_ok; [done|].
  repeat constructor; cbn [fst]; by simplify_map_eq.
Qed.

Lemma kwargs_bound_with_cache cache kwargs :
  kwargs_bound kwargs →
  with_cache cache kwargs !! "model" = None ∧
  with_cache cache kwargs !! "mode" = None.
Proof.
  intros (Hmodel & _ & _ & Hmode). by rewrite !with_cache_lookup_ne.
Qed.

(** C10.  For the anthropic provider the adapter factory receives
    [max_tokens=4096] when the caller gave no [max_tokens], and the caller's
    value otherwise; the key is removed from the remaining keyword arguments,
    so it is passed exactly once. *)
Theorem anthropic_max_tokens w async_client cache mode kwargs model_name :
  find_spec w "anthropic" = true →
  kwargs_bound kwargs →
  ∃ call,
    outcome (from_provider w ("anthropic/" ++ model_name) async_client cache
               mode kwargs) = Ok call ∧
    ac_factory call = "from_anthropic" ∧
    ac_keywords call =
      [("model", VStr model_name);
       ("mode", VMode (mode_or mode ANTHROPIC_TOOLS));
       ("max_tokens", default (VInt 4096) (kwargs !! "max_tokens"))] ∧
    ac_kwargs call = delete "max_tokens" (with_cache cache kwargs) ∧
    ac_kwargs call !! "max_tokens" = None ∧
    ac_field call "max_tokens" =
      Some (default (VInt 4096) (kwargs !! "max_tokens")).
Proof.
  intros Hdep Hbound.
  destruct (kwargs_bound_with_cache cache _ Hbound) as [Hmodel Hmode].
  change ("anthropic/" ++ model_name) with ("anthropic" ++ "/" ++ model_name).
  rewrite from_provider_first by reflexivity.
  change (dispatch w async_client model_name mode "anthropic" ?kw)
    with (provider_anthropic w async_client model_name mode kw).
  rewrite provider_anthropic_runs by done.
  rewrite with_cache_lookup_ne by done.
  eexists. split; [reflexivity|]. cbn [ac_factory ac_keywords ac_kwargs].
  repeat split.
  - apply lookup_delete_eq.
  - unfold ac_field, effective. cbn [ac_keywords ac_kwargs list_to_map foldr].
    apply lookup_union_Some_l. by simplify_map_eq.
Qed.

Lemma anthropic_max_tokens_witness :
  find_spec sdk_world "anthropic" = true ∧
  kwargs_bound {["max_tokens" := VInt 1024]} ∧
  ∃ call,
    outcome (from_provider sdk_world ("anthropic/" ++ "claude-3-sonnet") true
               (VObj 7) None {["max_tokens" := VInt 1024]}) = Ok call ∧
    ac_field call "max_tokens" = Some (VInt 1024) ∧
    ac_kwargs call = {["cache" := VObj 7]}.
Proof.
  assert (Hdep : find_spec sdk_world "anthropic" = true) by reflexivity.
  assert (Hbound : kwargs_bound {["max_tokens" := VInt 1024]})
    by (repeat split; reflexivity).
  split; [exact Hdep|]. split; [exact Hbound|].
  destruct (anthropic_max_tokens sdk_world true (VObj 7) None
              {["max_tokens" := VInt 1024]} "claude-3-sonnet" Hdep Hbound)
    as (call & Hcall & _ & _ & Hkwargs & _ & Hfield).
  exists call. split; [exact Hcall|]. split; [exact Hfield|].
  rewrite Hkwargs. vm_compute. reflexivity.
Defined.

(** ** The Ollama capability heuristic (C6) *)

(** [supports_tools] is the substring test of the lower-cased model name
    against the listed families. *)
Lemma supports_tools_spec model_name :
  supports_tools model_name = true ↔
  ∃ family pre post,
    family ∈ tool_capable_models ∧ lower model_name = pre ++ family ++ post.
Proof.
  unfold supports_tools. rewrite existsb_exists. split.
  - intros (family & Hin & Hsub). apply contains_spec in Hsub as (pre & post & E).
    exists family, pre, post. by rewrite list_elem_of_In.
  - intros (family & pre & post & Hin & E). exists family.
    rewrite <- list_elem_of_In. split; [done|].
    apply contains_spec. by exists pre, post.
Qed.

Lemma provider_ollama_runs w async_client model_name mode
    (kwargs : gmap string value) :
  find_spec w "openai" = true →
  kwargs !! "model" = None → kwargs !! "mode" = None →
  outcome (provider_ollama w async_client model_name mode kwargs) =
    Ok (AdapterCall "from_openai"
          (NativeClient (if async_client then "openai.AsyncOpenAI"
                         else "openai.OpenAI") []
             [("base_url",
               default (VStr "http://localhost:11434/v1") (kwargs !! "base_url"));
              ("api_key",
               default (VStr "ollama") (delete "base_url" kwargs !! "api_key"))]
             ∅)
          [("model", VStr model_name);
           ("mode", VMode (mode_or mode (if supports_tools model_name
                                         then TOOLS else JSON)))]
          (delete "api_key" (delete "base_url" kwargs))).
Proof.
  intros Hdep Hmodel Hmode. unfold provider_ollama.
  erewrite try_except_ImportError_ok; [reflexivity|].
  rewrite import_module_ok by done. run.
  rewrite import_from_instructor_ok by done. run.
  rewrite construct_plain. run.
  rewrite call_adapter_ok; [done|].
  repeat constructor; cbn [fst]; by simplify_map_eq.
Qed.

(** C6.  For the ollama provider without a mode override, the mode handed
    to the adapter factory is the tool-calling mode exactly when the
    lower-cased model name contains one of the listed family names, and the
    plain-JSON mode otherwise; "llama3.1" is such a name and
    "some-unlisted-model" is not. *)
Theorem ollama_default_mode w async_client cache kwargs model_name :
  find_spec w "openai" = true →
  kwargs_bound kwargs →
  ∃ call,
    outcome (from_provider w ("ollama/" ++ model_name) async_client cache None
               kwargs) = Ok call ∧
    ac_factory call = "from_openai" ∧
    ac_keywords call =
      [("model", VStr model_name);
       ("mode", VMode (if supports_tools model_name then TOOLS else JSON))] ∧
    (ac_field call "mode" = Some (VMode TOOLS) ↔
       ∃ family pre post,
         family ∈ tool_capable_models ∧
         lower model_name = pre ++ family ++ post) ∧
    (ac_field call "mode" = Some (VMode JSON) ↔
       ¬ ∃ family pre post,
           family ∈ tool_capable_models ∧
           lower model_name = pre ++ family ++ post) ∧
    supports_tools "llama3.1" = true ∧
    supports_tools "some-unlisted-model" = false.
Proof.
  intros Hdep Hbound.
  destruct (kwargs_bound_with_cache cache _ Hbound) as [Hmodel Hmode].
  change ("ollama/" ++ model_name) with ("ollama" ++ "/" ++ model_name).
  rewrite from_provider_first by reflexivity.
  change (dispatch w async_client model_name None "ollama" ?kw)
    with (provider_ollama w async_client model_name None kw).
  rewrite provider_ollama_runs by done.
  eexists. split; [reflexivity|]. cbn [ac_factory ac_keywords mode_or default].
  split; [done|]. split; [done|].
  assert (Hfield : ∀ kw : gmap string value, ∀ c m,
    ac_field (AdapterCall "from_openai" c
                [("model", VStr model_name); ("mode", VMode m)] kw) "mode"
    = Some (VMode m)).
  { intros kw c m. unfold ac_field, effective.
    cbn [ac_keywords ac_kwargs list_to_map foldr].
    apply lookup_union_Some_l. by simplify_map_eq. }
  rewrite Hfield, <- supports_tools_spec.
  split; [|split; [|split; vm_compute; reflexivity]].
  - destruct (supports_tools model_name); split; congruence.
  - destruct (supports_tools model_name); split; try congruence; done.
Qed.

Lemma ollama_default_mode_witness :
  find_spec sdk_world "openai" = true ∧
  kwargs_bound ∅ ∧
  ∃ call,
    outcome (from_provider sdk_world ("ollama/" ++ "Llama3.1:8b") false VNone
               None ∅) = Ok call ∧
    ac_keywords call = [("model", VStr "Llama3.1:8b"); ("mode", VMode TOOLS)].
Proof.
  assert (Hdep : find_spec sdk_world "openai" = true) by reflexivity.
  assert (Hbound : kwargs_bound ∅) by (repeat split; reflexivity).
  split; [exact Hdep|]. split; [exact Hbound|].
  destruct (ollama_default_mode sdk_world false VNone ∅ "Llama3.1:8b"
              Hdep Hbound) as (call & Hcall & _ & Hkeywords & _).
  exists call. split; [exact Hcall|]. exact Hkeywords.
Defined.

(** ** The mode override (C1) *)

(** The branches that name [mode] in the adapter call forward the caller's
    override; the OpenAI branch is one of them. *)
Lemma openai_forwards_mode_override (m : Mode) :
  outcome (from_provider sdk_world "openai/gpt-4" false VNone (Some m) ∅) =
    Ok (AdapterCall "from_openai" (NativeClient "openai.OpenAI" [] [] ∅)
          [("model", VStr "gpt-4"); ("mode", VMode m)] ∅).
Proof. reflexivity. Qed.

(** C1 fails on the Groq branch: whatever [mode] the caller passes, the call
    to [from_groq] is the same and carries no mode at all. *)
Theorem groq_drops_mode_override (mode : option Mode) :
  from_provider sdk_world "groq/llama-3.1-8b-instant" false VNone mode ∅ =
    ([EImport "groq"; EImport "instructor"; EConstruct "groq.Groq"],
     Ok (AdapterCall "from_groq" (NativeClient "groq.Groq" [] [] ∅)
           [("model", VStr "llama-3.1-8b-instant")] ∅)) ∧
  ac_field (AdapterCall "from_groq" (NativeClient "groq.Groq" [] [] ∅)
              [("model", VStr "llama-3.1-8b-instant")] ∅) "mode" = None.
Proof. split; vm_compute; reflexivity. Qed.

(** ** Credential precedence (C3) *)

(** The Azure branch resolves its key as C3 says: the keyword wins over the
    environment and leaves the forwarded keyword arguments. *)
Lemma azure_prefers_keyword :
  outcome (from_provider
             (World all_installed
                {[ "AZURE_OPENAI_API_KEY" := "env-key";
                   "AZURE_OPENAI_ENDPOINT" := "https://env.example" ]})
             "azure_openai/gpt-4o" false VNone None
             {["api_key" := VStr "kw-key"]}) =
    Ok (AdapterCall "from_openai"
          (NativeClient "openai.AzureOpenAI" []
             [("api_key", VStr "kw-key"); ("api_version", VStr "2024-02-01");
              ("azure_endpoint", VStr "https://env.example")] ∅)
          [("model", VStr "gpt-4o"); ("mode", VMode TOOLS)] ∅).
Proof. vm_compute. reflexivity. Qed.

(** C3 fails on the Perplexity and Mistral branches.  With both the
    environment variable and the keyword given, Perplexity builds its client
    from the environment value; when only the keyword is given it is used
    and yet stays in the keyword arguments handed to [from_perplexity]; and
    Mistral never looks at the keyword. *)
Theorem perplexity_prefers_environment :
  (∃ call,
     outcome (from_provider perplexity_world "perplexity/sonar" false VNone
                None {["api_key" := VStr "kw-key"]}) = Ok call ∧
     nc_field (ac_client call) "api_key" = Some (VStr "env-key") ∧
     ac_kwargs call !! "api_key" = Some (VStr "kw-key")) ∧
  (∃ call,
     outcome (from_provider sdk_world "perplexity/sonar" false VNone None
                {["api_key" := VStr "kw-key"]}) = Ok call ∧
     nc_field (ac_client call) "api_key" = Some (VStr "kw-key") ∧
     ac_kwargs call !! "api_key" = Some (VStr "kw-key")) ∧
  outcome (from_provider sdk_world "mistral/mistral-large-latest" false VNone
             None {["api_key" := VStr "kw-key"]}) =
    Raise (ValueError
             ("MISTRAL_API_KEY is not set. "
              ++ "Set it with `export MISTRAL_API_KEY=<your-api-key>`.")).
Proof.
  split; [|split].
  - eexists. split; [vm_compute; reflexivity|]. split; vm_compute; reflexivity.
  - eexists. split; [vm_compute; reflexivity|]. split; vm_compute; reflexivity.
  - vm_compute. reflexivity.
Qed.

(** ** Missing credentials and the kinds of error (C4, C5) *)

(** The Azure branch reports a missing key as C4 says. *)
Lemma azure_missing_key_is_ConfigurationError :
  ∃ msg,
    outcome (from_provider sdk_world "azure_openai/gpt-4o" false VNone None ∅)
      = Raise (ConfigurationError msg) ∧
    contains "AZURE_OPENAI_API_KEY" msg = true ∧
    contains "api_key=" msg = true.
Proof. eexists. repeat split; vm_compute; reflexivity. Qed.

(** C4 fails on the Mistral branch: with the SDK installed and no
    [MISTRAL_API_KEY], the call raises [ValueError], not
    [ConfigurationError]; the message names the variable but no keyword. *)
Theorem mistral_missing_key_is_ValueError :
  ∃ msg,
    outcome (from_provider sdk_world "mistral/mistral-large-latest" false
               VNone None ∅) = Raise (ValueError msg) ∧
    is_ConfigurationError
      (outcome (from_provider sdk_world "mistral/mistral-large-latest" false
                  VNone None ∅)) = false ∧
    contains "MISTRAL_API_KEY" msg = true ∧
    contains "api_key" msg = false.
Proof. eexists. repeat split; vm_compute; reflexivity. Qed.

(** C5 fails on the same kind of path: the deprecated Vertex AI branch (like
    the Mistral and Perplexity ones) ends a call that lacks its required
    configuration with [ValueError], which is neither of the two kinds. *)
Theorem vertexai_missing_project_is_ValueError :
  outcome (from_provider sdk_world "vertexai/gemini-pro" false VNone None ∅) =
    Raise (ValueError
             ("Project ID is required for Vertex AI. "
              ++ "Set it with `export GOOGLE_CLOUD_PROJECT=<your-project-id>` "
              ++ "or pass it as kwarg project=<your-project-id>")) ∧
  is_ConfigurationError
    (outcome (from_provider sdk_world "vertexai/gemini-pro" false VNone None ∅))
    = false ∧
  is_import_error
    (outcome (from_provider sdk_world "vertexai/gemini-pro" false VNone None ∅))
    = false ∧
  (∃ msg, outcome (from_provider sdk_world "perplexity/sonar" false VNone
                     None ∅) = Raise (ValueError msg)).
Proof.
  split; [vm_compute; reflexivity|]. split; [vm_compute; reflexivity|].
  split; [vm_compute; reflexivity|]. eexists. vm_compute. reflexivity.
Qed.

(** ** Which events a computation performs *)

Lemma silent_warnings {A : Type} (m : M A) : silent m → warnings m = [].
Proof.
  unfold silent, warnings. induction 1 as [|ev t Hev _ IH]; [done|].
  cbn [List.filter]. by rewrite Hev.
Qed.

Section Silent.

Context {A B : Type}.

Lemma silent_ret (a : A) : silent (mret a).
Proof. constructor. Qed.

Lemma silent_raise (e : exn) : silent (raise (A := A) e).
Proof. constructor. Qed.

Lemma silent_emit (ev : event) : is_warning ev = false → silent (emit ev).
Proof. by repeat constructor. Qed.

Lemma silent_bind (m : M A) (k : A → M B) :
  silent m → (∀ a, silent (k a)) → silent (m ≫= k).
Proof.
  unfold silent. intros Hm Hk. destruct m as [t [a|e]]; cbn; [|done].
  specialize (Hk a). destruct (k a) as [t' r]. by apply Forall_app.
Qed.

Lemma silent_try_ImportError (body handler : M A) :
  silent body → silent handler →
  silent (try_except_ImportError body handler).
Proof.
  unfold silent, try_except_ImportError. intros Hb Hh.
  destruct body as [t [a|[]]]; try done.
  destruct handler as [t' r]. by apply Forall_app.
Qed.

End Silent.

Lemma silent_check_keywords callee keywords kwargs :
  silent (check_keywords callee keywords kwargs).
Proof.
  unfold check_keywords. destruct (duplicate_keyword _ _); constructor.
Qed.

Ltac silent_step :=
  match goal with
  | |- silent (try_except_ImportError _ _) => apply silent_try_ImportError
  | |- silent (_ ≫= _) => apply silent_bind; [|intros ?]
  | |- silent (mret _) => apply silent_ret
  | |- silent (raise _) => apply silent_raise
  | |- silent (emit _) => apply silent_emit; reflexivity
  | |- silent (check_keywords _ _ _) => apply silent_check_keywords
  | |- silent (if ?b then _ else _) => destruct b
  | |- silent (match ?p with (_, _) => _ end) => destruct p
  | |- silent (?f _) => unfold f
  | |- silent (?f _ _) => unfold f
  | |- silent (?f _ _ _) => unfold f
  | |- silent (?f _ _ _ _) => unfold f
  end.

(** After its warning the Vertex AI branch emits no other. *)
Lemma provider_vertexai_warns_once w async_client model_name kwargs :
  length (warnings (provider_vertexai w async_client model_name kwargs)) = 1.
Proof.
  unfold provider_vertexai, warn_deprecated.
  match goal with
  | |- context [try_except_ImportError ?b ?h] =>
      assert (Hs : silent (try_except_ImportError b h)) by (repeat silent_step);
      apply silent_warnings in Hs; revert Hs;
      generalize (try_except_ImportError b h)
  end.
  intros [t r] Hs. unfold warnings in *. cbn in *. by rewrite Hs.
Qed.

Lemma provider_google_silent w async_client model_name kwargs :
  silent (provider_google w async_client model_name kwargs).
Proof. unfold provider_google. repeat silent_step. Qed.

(** ** What a returning computation returns *)

Section ReturnsOnly.

Context {A B : Type}.

Lemma returns_only_raise (Q : A → Prop) (e : exn) : returns_only Q (raise e).
Proof. by intros a. Qed.

Lemma returns_only_bind (Q : B → Prop) (m : M A) (k : A → M B) :
  (∀ a, outcome m = Ok a → returns_only Q (k a)) → returns_only Q (m ≫= k).
Proof.
  intros Hk b. destruct m as [t [a|e]]; cbn; [|done].
  specialize (Hk a eq_refl b). by destruct (k a) as [t' r].
Qed.

Lemma returns_only_try_ImportError (Q : A → Prop) (body handler : M A) :
  returns_only Q body → returns_only Q handler →
  returns_only Q (try_except_ImportError body handler).
Proof.
  intros Hb Hh a. unfold try_except_ImportError.
  destruct body as [t [a'|[]]]; try exact (Hb a).
  specialize (Hh a). by destruct handler as [t' r].
Qed.

End ReturnsOnly.

Lemma returns_only_raise_ConfigurationError {A : Type} (Q : A → Prop) msg :
  returns_only Q (raise_ConfigurationError msg).
Proof. by intros a. Qed.

Lemma construct_returns cls args keywords kwargs c :
  outcome (construct cls args keywords kwargs) = Ok c →
  c = NativeClient cls args keywords kwargs.
Proof.
  unfold construct, check_keywords.
  destruct (duplicate_keyword keywords kwargs); cbn; congruence.
Qed.

Lemma environ_get_returns w var v :
  outcome (environ_get w var) = Ok v →
  v = from_option VStr VNone (environ w !! var).
Proof. cbn. congruence. Qed.

Lemma environ_get_default_returns w var dflt v :
  outcome (environ_get_default w var dflt) = Ok v →
  v = from_option VStr dflt (environ w !! var).
Proof. cbn. congruence. Qed.

Lemma returns_only_call_adapter (Q : adapter_call → Prop) factory client
    keywords kwargs :
  (duplicate_keyword keywords kwargs = None →
   Q (AdapterCall factory client keywords kwargs)) →
  returns_only Q (call_adapter factory client keywords kwargs).
Proof.
  intros HQ call. unfold call_adapter, check_keywords.
  destruct (duplicate_keyword keywords kwargs); cbn; [done|].
  intros [= <-]. by apply HQ.
Qed.

(** One step of a proof about the adapter call of a branch; what is left is
    the property at each [from_<provider>(...)] call of the branch. *)
Ltac returns_step :=
  match goal with
  | |- returns_only _ (try_except_ImportError _ _) =>
      apply returns_only_try_ImportError
  | |- returns_only _ (raise_ConfigurationError _) =>
      apply returns_only_raise_ConfigurationError
  | |- returns_only _ (raise _) => apply returns_only_raise
  | |- returns_only _ (call_adapter _ _ _ _) =>
      apply returns_only_call_adapter; intros ?Hdup
  | |- returns_only _ (_ ≫= _) =>
      apply returns_only_bind;
      let a := fresh "a" in let Ha := fresh "Ha" in
      intros a Ha;
      first [ apply construct_returns in Ha; subst a
            | apply environ_get_returns in Ha; subst a
            | apply environ_get_default_returns in Ha; subst a
            | clear Ha ]
  | |- returns_only _ (if ?b then _ else _) =>
      let Hb := fresh "Hb" in destruct b eqn:Hb
  | |- returns_only _ (match ?p with (_, _) => _ end) =>
      let E := fresh "E" in destruct p eqn:E
  end.

(** Unfolds a branch down to its monadic steps, with the [dict.pop] calls
    replaced by their results. *)
Ltac open_branch :=
  autounfold with providers; unfold dict_pop; cbv beta iota zeta.

(** Case analysis on the provider token along the chain of [dispatch]. *)
Ltac dispatch_cases provider :=
  unfold dispatch;
  repeat match goal with
    | |- context [String.eqb provider ?s] =>
        destruct (String.eqb_spec provider s) as [->|?]
    end.

(** ** The Vertex AI alias and the Google branch (C7) *)

Ltac mem_cases :=
  repeat match goal with
    | |- context [decide (?x ∈ ?l)] => destruct (decide (x ∈ l))
    end.

(** The loop moves the listed keys, and only those, to the client's keyword
    arguments. *)
Lemma extract_client_kwargs_spec keys (kwargs : gmap string value) :
  ∀ k,
    (extract_client_kwargs keys kwargs).1 !! k =
      (if decide (k ∈ keys) then kwargs !! k else None) ∧
    (extract_client_kwargs keys kwargs).2 !! k =
      (if decide (k ∈ keys) then None else kwargs !! k).
Proof.
  unfold extract_client_kwargs.
  assert (Hgen : ∀ (acc : gmap string value) k,
    (∀ k', k' ∈ keys → acc !! k' = None ∨ kwargs !! k' = None) →
    let r := fold_left
      (λ '(client_kwargs, kwargs) key,
         match kwargs !! key with
         | Some v => (<[key := v]> client_kwargs, delete key kwargs)
         | None => (client_kwargs, kwargs)
         end) keys (acc, kwargs) in
    r.1 !! k = (if decide (k ∈ keys) then acc !! k ∪ kwargs !! k else acc !! k) ∧
    r.2 !! k = (if decide (k ∈ keys) then None else kwargs !! k)).
  { clear. revert kwargs.
    induction keys as [|key keys IH]; intros kwargs acc k Hdisj.
    - cbn. split; by destruct (decide (k ∈ [])) as [Hin%elem_of_nil|].
    - cbn [fold_left]. destruct (kwargs !! key) as [v|] eqn:Hkey.
      + pose proof (IH (delete key kwargs) (<[key := v]> acc) k) as Hrec.
        cbn zeta in Hrec. destruct Hrec as [H1 H2].
        { intros k' Hk'. destruct (decide (k' = key)) as [->|Hne].
          - right. apply lookup_delete_eq.
          - rewrite lookup_insert_ne, lookup_delete_ne by done.
            apply Hdisj, elem_of_cons. by right. }
        rewrite H1, H2. destruct (decide (k = key)) as [->|Hne].
        * rewrite lookup_insert_eq, lookup_delete_eq, Hkey.
          destruct (Hdisj key) as [Hacc|Hkw];
            [apply elem_of_cons; by left| |congruence].
          rewrite Hacc. mem_cases; try done.
          all: exfalso; rewrite elem_of_cons in *; intuition congruence.
        * rewrite lookup_insert_ne, lookup_delete_ne by done.
          mem_cases; try done.
          all: exfalso; rewrite elem_of_cons in *; intuition congruence.
      + pose proof (IH kwargs acc k) as Hrec.
        cbn zeta in Hrec. destruct Hrec as [H1 H2].
        { intros k' Hk'. apply Hdisj, elem_of_cons. by right. }
        rewrite H1, H2. destruct (decide (k = key)) as [->|Hne].
        * rewrite Hkey. mem_cases; try done; try by destruct (acc !! key).
          all: exfalso; rewrite elem_of_cons in *; intuition congruence.
        * mem_cases; try done.
          all: exfalso; rewrite elem_of_cons in *; intuition congruence. }
  intros k. destruct (Hgen ∅ k) as [H1 H2].
  { intros k' _. left. apply lookup_empty. }
  cbn zeta in H1, H2. rewrite H1, H2, lookup_empty.
  split; [|done]. case_decide; [|done]. by destruct (kwargs !! k).
Qed.

Lemma instructor_exports_from_genai w :
  find_spec w "google" = true → find_spec w "google.genai" = true →
  instructor_exports w "from_genai" = true.
Proof. intros H1 H2. cbv [instructor_exports]. cbn. by rewrite H1, H2. Qed.

Lemma nc_field_keyword cls args keywords (kwargs : gmap string value) k v :
  list_to_map (M := gmap string value) keywords !! k = Some v →
  nc_field (NativeClient cls args keywords kwargs) k = Some v.
Proof. intros H. unfold nc_field, effective. by apply lookup_union_Some_l. Qed.

Lemma nc_field_kwargs cls args keywords (kwargs : gmap string value) k :
  list_to_map (M := gmap string value) keywords !! k = None →
  nc_field (NativeClient cls args keywords kwargs) k = kwargs !! k.
Proof. intros H. unfold nc_field, effective. by apply lookup_union_r. Qed.

Lemma ac_field_keyword f c keywords (kwargs : gmap string value) k v :
  list_to_map (M := gmap string value) keywords !! k = Some v →
  ac_field (AdapterCall f c keywords kwargs) k = Some v.
Proof. intros H. unfold ac_field, effective. by apply lookup_union_Some_l. Qed.

Lemma ac_field_kwargs f c keywords (kwargs : gmap string value) k :
  list_to_map (M := gmap string value) keywords !! k = None →
  ac_field (AdapterCall f c keywords kwargs) k = kwargs !! k.
Proof. intros H. unfold ac_field, effective. by apply lookup_union_r. Qed.

Lemma google_client_keys_elem k :
  k ∈ google_client_keys ↔
  k = "debug_config" ∨ k = "http_options" ∨ k = "credentials" ∨
  k = "project" ∨ k = "location".
Proof.
  unfold google_client_keys. rewrite !elem_of_cons, elem_of_nil. tauto.
Qed.

Lemma extract_google_other (kwargs : gmap string value) k :
  k ∉ google_client_keys →
  (extract_client_kwargs google_client_keys kwargs).1 !! k = None ∧
  (extract_client_kwargs google_client_keys kwargs).2 !! k = kwargs !! k.
Proof.
  intros Hk. destruct (extract_client_kwargs_spec google_client_keys kwargs k)
    as [H1 H2].
  by rewrite decide_False in H1, H2.
Qed.

Lemma extract_google_listed (kwargs : gmap string value) k :
  k ∈ google_client_keys →
  (extract_client_kwargs google_client_keys kwargs).1 !! k = kwargs !! k ∧
  (extract_client_kwargs google_client_keys kwargs).2 !! k = None.
Proof.
  intros Hk. destruct (extract_client_kwargs_spec google_client_keys kwargs k)
    as [H1 H2].
  by rewrite decide_True in H1, H2.
Qed.

Ltac not_client_key :=
  rewrite google_client_keys_elem; intros Hk; decompose [or] Hk; discriminate.

(** What the Google branch has passed on when it returns. *)
Lemma provider_google_returns w (async_client : bool) model_name
    (kwargs : gmap string value) :
  returns_only
    (λ call,
       ac_factory call = "from_genai" ∧
       nc_class (ac_client call) = "google.genai.Client" ∧
       nc_field (ac_client call) "vertexai" =
         Some (default (VBool false) (kwargs !! "vertexai")) ∧
       nc_field (ac_client call) "api_key" =
         Some (default (from_option VStr VNone (environ w !! "GOOGLE_API_KEY"))
                 (kwargs !! "api_key")) ∧
       (∀ k, k ∈ google_client_keys →
             nc_field (ac_client call) k = kwargs !! k) ∧
       (∀ k, k ∈ "vertexai" :: "api_key" :: google_client_keys →
             ac_kwargs call !! k = None) ∧
       ac_field call "model" = Some (VStr model_name) ∧
       ac_field call "use_async" =
         (if async_client then Some (VBool true) else kwargs !! "use_async"))
    (provider_google w async_client model_name kwargs).
Proof.
  unfold provider_google, dict_pop. cbv beta iota zeta.
  set (rest := delete "api_key" (delete "vertexai" kwargs)).
  assert (Hrest : ∀ k, k ≠ "api_key" → k ≠ "vertexai" →
                       rest !! k = kwargs !! k)
    by (intros k ? ?; unfold rest; by rewrite !lookup_delete_ne).
  pose proof (extract_google_listed rest) as Hlisted.
  pose proof (extract_google_other rest) as Hother.
  destruct (extract_client_kwargs google_client_keys rest)
    as [client_kwargs kwargs'] eqn:E.
  cbn [fst snd] in Hlisted, Hother. cbv beta iota zeta.
  repeat returns_step; cbn [ac_factory ac_client ac_kwargs nc_class].
  all: split; [done|]; split; [done|].
  all: split; [apply nc_field_keyword; by simplify_map_eq|].
  all: split;
    [apply nc_field_keyword; cbn [list_to_map foldr];
     rewrite lookup_insert_ne, lookup_insert_eq by done;
     by rewrite lookup_delete_ne|].
  all: split;
    [intros k Hk; destruct (Hlisted k Hk) as [Hck _];
     apply google_client_keys_elem in Hk;
     rewrite nc_field_kwargs, Hck;
     [apply Hrest; intros ->; decompose [or] Hk; discriminate
     |cbn [list_to_map foldr];
      rewrite !lookup_insert_ne, lookup_empty; [done|..];
      intros ?; subst k; decompose [or] Hk; discriminate]|].
  all: split;
    [intros k Hk; rewrite !elem_of_cons in Hk;
     destruct (decide (k ∈ google_client_keys)) as [Hin|Hnin];
     [by destruct (Hlisted k Hin) as [_ ->]
     |destruct (Hother k Hnin) as [_ ->]; unfold rest;
      destruct Hk as [->|[->|Hk]]; [| |done];
      [rewrite lookup_delete_ne by done; apply lookup_delete_eq
      |apply lookup_delete_eq]]|].
  all: split; [apply ac_field_keyword; by simplify_map_eq|].
  - apply ac_field_keyword. by simplify_map_eq.
  - rewrite ac_field_kwargs by by simplify_map_eq.
    destruct (Hother "use_async") as [_ ->]; [not_client_key|].
    by apply Hrest.
Qed.

(** What the Vertex AI branch has passed on when it returns. *)
Lemma provider_vertexai_returns w (async_client : bool) model_name
    (kwargs : gmap string value) :
  let project :=
    default (from_option VStr VNone (environ w !! "GOOGLE_CLOUD_PROJECT"))
      (kwargs !! "project") in
  let location :=
    default (from_option VStr (VStr "us-central1")
               (environ w !! "GOOGLE_CLOUD_LOCATION"))
      (kwargs !! "location") in
  let rest := delete "location" (delete "project" kwargs) in
  returns_only
    (λ call,
       truthy project = true ∧
       call = AdapterCall "from_genai"
                (NativeClient "google.genai.Client" []
                   [("vertexai", VBool true); ("project", project);
                    ("location", location)] rest)
                (if async_client then [("use_async", VBool true)] else [])
                (<["model" := VStr model_name]> rest))
    (provider_vertexai w async_client model_name kwargs).
Proof.
  intros project location rest.
  unfold provider_vertexai, dict_pop. cbv beta iota zeta.
  rewrite (lookup_delete_ne kwargs "project" "location") by done.
  fold project location rest.
  repeat returns_step; split; try done.
  all: match goal with
       | H : negb _ = false |- _ => apply negb_false_iff in H; exact H
       end.
Qed.

(** C7, as the specification states it, fails: with the project given in
    [GOOGLE_CLOUD_PROJECT], the "vertexai" call configures its client with
    that project and the default location, while "google" with
    [vertexai=True] reads neither and configures a client without them. *)
Lemma vertexai_differs_from_google :
  ∃ legacy current,
    outcome (from_provider vertex_world "vertexai/gemini-pro" false VNone None
               ∅) = Ok legacy ∧
    outcome (from_provider vertex_world "google/gemini-pro" false VNone None
               {["vertexai" := VBool true]}) = Ok current ∧
    nc_field (ac_client legacy) "project" = Some (VStr "my-project") ∧
    nc_field (ac_client current) "project" = None ∧
    nc_field (ac_client legacy) "location" = Some (VStr "us-central1") ∧
    nc_field (ac_client current) "location" = None ∧
    effective (nc_keywords (ac_client legacy)) (nc_kwargs (ac_client legacy))
    ≠ effective (nc_keywords (ac_client current)) (nc_kwargs (ac_client current)).
Proof.
  eexists _, _. split; [vm_compute; reflexivity|].
  split; [vm_compute; reflexivity|].
  repeat split; try (vm_compute; reflexivity).
  intros H. apply (f_equal (λ m : gmap string value, m !! "project")) in H.
  vm_compute in H. discriminate H.
Qed.

(** C7, amended.  Every "vertexai/gemini-pro" call emits exactly one
    deprecation warning, and "google/gemini-pro" with [vertexai=True] emits
    none.  When the caller passes [project] and [location] as keyword
    arguments, each of the two calls that returns has built a
    [google.genai.Client] with [vertexai=True] and the caller's project and
    location, and has handed it to [from_genai] with the model "gemini-pro"
    and with [use_async=True] for an async client (the caller's own
    [use_async], if any, otherwise). *)
Theorem vertexai_alias_of_google w (async_client : bool) cache mode
    (kwargs : gmap string value) project location :
  kwargs !! "project" = Some project →
  kwargs !! "location" = Some location →
  let legacy :=
    from_provider w "vertexai/gemini-pro" async_client cache mode kwargs in
  let current :=
    from_provider w "google/gemini-pro" async_client cache mode
      (<["vertexai" := VBool true]> kwargs) in
  let use_async :=
    if async_client then Some (VBool true) else kwargs !! "use_async" in
  (∀ w' async_client' cache' mode' kwargs',
     length (warnings (from_provider w' "vertexai/gemini-pro" async_client'
                         cache' mode' kwargs')) = 1) ∧
  warnings current = [] ∧
  (∀ call, outcome legacy = Ok call →
           vertex_call project location "gemini-pro" use_async call) ∧
  (∀ call, outcome current = Ok call →
           vertex_call project location "gemini-pro" use_async call).
Proof.
  intros Hp Hl legacy current use_async.
  assert (Hfirst : ∀ w' a' c' m' kw' provider,
    contains "/" provider = false →
    from_provider w' (provider ++ "/" ++ "gemini-pro") a' c' m' kw' =
    dispatch w' a' "gemini-pro" m' provider (with_cache c' kw'))
    by (intros; by apply from_provider_first).
  split; [|split; [|split]].
  - intros w' a' c' m' kw'.
    change "vertexai/gemini-pro" with ("vertexai" ++ "/" ++ "gemini-pro").
    rewrite Hfirst by reflexivity. apply provider_vertexai_warns_once.
  - apply silent_warnings. unfold current.
    change "google/gemini-pro" with ("google" ++ "/" ++ "gemini-pro").
    rewrite Hfirst by reflexivity. apply provider_google_silent.
  - intros call. unfold legacy.
    change "vertexai/gemini-pro" with ("vertexai" ++ "/" ++ "gemini-pro").
    rewrite Hfirst by reflexivity.
    change (dispatch w async_client "gemini-pro" mode "vertexai" ?kw)
      with (provider_vertexai w async_client "gemini-pro" kw).
    intros [_ ->]%provider_vertexai_returns.
    rewrite !with_cache_lookup_ne, Hp, Hl by done. cbn [default from_option id].
    unfold vertex_call. cbn [ac_factory ac_client nc_class].
    split; [done|]. split; [done|].
    split; [apply nc_field_keyword; by simplify_map_eq|].
    split; [apply nc_field_keyword; by simplify_map_eq|].
    split; [apply nc_field_keyword; by simplify_map_eq|].
    split.
    + rewrite ac_field_kwargs by (destruct async_client; by simplify_map_eq).
      apply lookup_insert_eq.
    + unfold use_async. destruct async_client.
      * apply ac_field_keyword. by simplify_map_eq.
      * rewrite ac_field_kwargs by by simplify_map_eq.
        rewrite lookup_insert_ne, !lookup_delete_ne by done.
        by rewrite with_cache_lookup_ne.
  - intros call. unfold current.
    change "google/gemini-pro" with ("google" ++ "/" ++ "gemini-pro").
    rewrite Hfirst by reflexivity.
    change (dispatch w async_client "gemini-pro" mode "google" ?kw)
      with (provider_google w async_client "gemini-pro" kw).
    intros (Hf & Hc & Hv & _ & Hkeys & _ & Hm & Hu)%provider_google_returns.
    unfold vertex_call. split; [done|]. split; [done|].
    split; [|split; [|split; [|split; [done|]]]].
    + rewrite Hv. by rewrite with_cache_lookup_ne, lookup_insert_eq.
    + rewrite Hkeys by (apply google_client_keys_elem; tauto).
      by rewrite with_cache_lookup_ne, lookup_insert_ne.
    + rewrite Hkeys by (apply google_client_keys_elem; tauto).
      by rewrite with_cache_lookup_ne, lookup_insert_ne.
    + rewrite Hu. unfold use_async. destruct async_client; [done|].
      by rewrite with_cache_lookup_ne, lookup_insert_ne.
Qed.

Lemma vertexai_alias_of_google_witness :
  vertex_kwargs !! "project" = Some (VStr "my-project") ∧
  vertex_kwargs !! "location" = Some (VStr "europe-west1") ∧
  ∃ cl cc,
    outcome (from_provider sdk_world "vertexai/gemini-pro" true VNone None
               vertex_kwargs) = Ok cl ∧
    outcome (from_provider sdk_world "google/gemini-pro" true VNone None
               (<["vertexai" := VBool true]> vertex_kwargs)) = Ok cc ∧
    vertex_call (VStr "my-project") (VStr "europe-west1") "gemini-pro"
      (Some (VBool true)) cl ∧
    vertex_call (VStr "my-project") (VStr "europe-west1") "gemini-pro"
      (Some (VBool true)) cc.
Proof.
  assert (Hp : vertex_kwargs !! "project" = Some (VStr "my-project"))
    by reflexivity.
  assert (Hl : vertex_kwargs !! "location" = Some (VStr "europe-west1"))
    by reflexivity.
  split; [exact Hp|]. split; [exact Hl|].
  destruct (vertexai_alias_of_google sdk_world true VNone None vertex_kwargs
              (VStr "my-project") (VStr "europe-west1") Hp Hl)
    as (_ & _ & Hlegacy & Hcurrent).
  eexists _, _. split; [vm_compute; reflexivity|].
  split; [vm_compute; reflexivity|].
  split; [apply Hlegacy|apply Hcurrent]; vm_compute; reflexivity.
Defined.

(** * Further properties of the branches *)

(** ** The cache option *)

Lemma dispatch_forwards_key w async_client model_name mode provider
    (kwargs : gmap string value) key v :
  key ∉ ["api_key"; "azure_endpoint"; "api_version"; "max_tokens"; "vertexai";
         "debug_config"; "http_options"; "credentials"; "project"; "location";
         "base_url"; "model"] →
  kwargs !! key = Some v →
  returns_only (λ call, ac_kwargs call !! key = Some v)
    (dispatch w async_client model_name mode provider kwargs).
Proof.
  intros Hkey Hv.
  assert (Hne : ∀ k, k ∈ ["api_key"; "azure_endpoint"; "api_version";
      "max_tokens"; "vertexai"; "debug_config"; "http_options"; "credentials";
      "project"; "location"; "base_url"; "model"] → k ≠ key)
    by (intros k Hk ->; done).
  assert (Hclient : ∀ kw : gmap string value, kw !! key = Some v →
    (extract_client_kwargs google_client_keys kw).2 !! key = Some v).
  { intros kw Hkw. destruct (extract_google_other kw key) as [_ ->]; [|done].
    rewrite google_client_keys_elem. intros Hk. apply Hkey.
    rewrite !elem_of_cons. tauto. }
  dispatch_cases provider; open_branch; repeat returns_step;
    cbn [ac_kwargs];
    try match goal with
      | E : extract_client_kwargs _ _ = (_, _) |- _ =>
          apply (f_equal snd) in E; cbn [snd] in E; rewrite <- E;
          apply Hclient
      end;
    rewrite ?lookup_insert_ne, ?lookup_delete_ne
      by (apply Hne; rewrite !elem_of_cons; tauto);
    done.
Qed.

Lemma from_provider_returns_inv w model async_client cache mode kwargs call :
  outcome (from_provider w model async_client cache mode kwargs) = Ok call →
  ∃ p m, model = p ++ "/" ++ m ∧ contains "/" p = false ∧
         outcome (dispatch w async_client m mode p (with_cache cache kwargs))
         = Ok call.
Proof.
  intros H. destruct (contains "/" model) eqn:Hsep.
  - destruct (split_once_present _ Hsep) as (p & m & -> & Hp).
    rewrite from_provider_first in H by done. by exists p, m.
  - by rewrite from_provider_absent in H.
Qed.

(** A cache adapter given to [from_provider] is among the keyword arguments
    of the adapter factory, whatever the provider. *)
Theorem cache_reaches_adapter w model async_client cache mode kwargs call :
  cache ≠ VNone →
  outcome (from_provider w model async_client cache mode kwargs) = Ok call →
  ac_kwargs call !! "cache" = Some cache.
Proof.
  intros Hcache (p & m & -> & _ & H)%from_provider_returns_inv.
  eapply (dispatch_forwards_key _ _ _ _ _ _ "cache" cache); [| |exact H].
  - rewrite !not_elem_of_cons. repeat split; try done. apply not_elem_of_nil.
  - destruct cache; try done; apply lookup_insert_eq.
Qed.

Lemma cache_reaches_adapter_witness :
  VObj 7 ≠ VNone ∧
  ∃ call,
    outcome (from_provider sdk_world "groq/llama-3.1-8b-instant" true (VObj 7)
               None ∅) = Ok call ∧
    ac_kwargs call !! "cache" = Some (VObj 7).
Proof.
  assert (Hcache : VObj 7 ≠ VNone) by discriminate.
  split; [exact Hcache|]. eexists. split; [vm_compute; reflexivity|].
  apply (cache_reaches_adapter sdk_world "groq/llama-3.1-8b-instant" true
           (VObj 7) None ∅ _ Hcache).
  vm_compute. reflexivity.
Defined.

(** A keyword argument that no branch pops reaches the adapter factory
    unchanged, whatever the provider. *)
Theorem unknown_keyword_is_forwarded w model async_client cache mode
    (kwargs : gmap string value) key v call :
  key ∉ ["api_key"; "azure_endpoint"; "api_version"; "max_tokens"; "vertexai";
         "debug_config"; "http_options"; "credentials"; "project"; "location";
         "base_url"; "model"; "cache"] →
  kwargs !! key = Some v →
  outcome (from_provider w model async_client cache mode kwargs) = Ok call →
  ac_kwargs call !! key = Some v.
Proof.
  intros Hkey Hv (p & m & -> & _ & H)%from_provider_returns_inv.
  eapply (dispatch_forwards_key _ _ _ _ _ _ key v); [| |exact H].
  - intros Hin. apply Hkey. rewrite !elem_of_cons in *. tauto.
  - rewrite with_cache_lookup_ne; [done|].
    intros ->. apply Hkey. rewrite !elem_of_cons. tauto.
Qed.

Lemma unknown_keyword_is_forwarded_witness :
  ("timeout" ∉ ["api_key"; "azure_endpoint"; "api_version"; "max_tokens";
                "vertexai"; "debug_config"; "http_options"; "credentials";
                "project"; "location"; "base_url"; "model"; "cache"]) ∧
  ({["timeout" := VInt 30; "max_tokens" := VInt 64]} : gmap string value)
    !! "timeout" = Some (VInt 30) ∧
  ∃ call,
    outcome (from_provider sdk_world "anthropic/claude-3-sonnet" false VNone
               None {["timeout" := VInt 30; "max_tokens" := VInt 64]})
      = Ok call ∧
    ac_kwargs call !! "timeout" = Some (VInt 30).
Proof.
  assert (Hkey : "timeout" ∉ ["api_key"; "azure_endpoint"; "api_version";
      "max_tokens"; "vertexai"; "debug_config"; "http_options"; "credentials";
      "project"; "location"; "base_url"; "model"; "cache"]).
  { apply (bool_decide_unpack _). vm_compute. exact I. }
  assert (Hv : ({["timeout" := VInt 30; "max_tokens" := VInt 64]}
                  : gmap string value) !! "timeout" = Some (VInt 30))
    by reflexivity.
  split; [exact Hkey|]. split; [exact Hv|].
  eexists. split; [vm_compute; reflexivity|].
  apply (unknown_keyword_is_forwarded sdk_world "anthropic/claude-3-sonnet"
           false VNone None _ "timeout" (VInt 30) _ Hkey Hv).
  vm_compute. reflexivity.
Defined.

(** ** Mode, model name, client class and factory of each branch *)

Ltac field_of_call :=
  first
    [ apply ac_field_keyword; by simplify_map_eq
    | rewrite ac_field_kwargs by (by simplify_map_eq); apply lookup_insert_eq ].

Lemma dispatch_mode w async_client model_name mode provider kwargs :
  returns_only
    (λ call, ∀ dflt, branch_default_mode provider model_name = Some dflt →
             ac_field call "mode" = Some (VMode (mode_or mode dflt)))
    (dispatch w async_client model_name mode provider kwargs).
Proof.
  dispatch_cases provider; open_branch; repeat returns_step;
    intros dflt Hd;
    cbv beta iota delta [branch_default_mode String.eqb Ascii.eqb Bool.eqb]
      in Hd;
    try discriminate Hd; injection Hd as <-; field_of_call.
Qed.

(** The openai, azure_openai, anthropic, ollama and xai branches hand the
    caller's mode to their adapter factory, and their own default when the
    caller gave none: the tool-calling mode for openai and azure_openai, the
    Anthropic tool mode for anthropic, the heuristic's choice for ollama and
    the plain-JSON mode for xai. *)
Theorem mode_override_or_branch_default w p m async_client cache mode kwargs
    dflt call :
  contains "/" p = false →
  branch_default_mode p m = Some dflt →
  outcome (from_provider w (p ++ "/" ++ m) async_client cache mode kwargs)
    = Ok call →
  ac_field call "mode" = Some (VMode (mode_or mode dflt)) ∧
  (∀ override, mode = Some override →
     ac_field call "mode" = Some (VMode override)) ∧
  (mode = None → ac_field call "mode" = Some (VMode dflt)).
Proof.
  intros Hp Hd H. rewrite from_provider_first in H by done.
  pose proof (dispatch_mode _ _ _ _ _ _ _ H dflt Hd) as Hmode.
  split; [done|]. split; [by intros override ->|by intros ->].
Qed.

Lemma mode_override_or_branch_default_witness :
  contains "/" "xai" = false ∧
  branch_default_mode "xai" "grok-3" = Some JSON ∧
  ∃ call,
    outcome (from_provider sdk_world ("xai" ++ "/" ++ "grok-3") false VNone
               (Some TOOLS) ∅) = Ok call ∧
    ac_field call "mode" = Some (VMode TOOLS).
Proof.
  assert (Hp : contains "/" "xai" = false) by reflexivity.
  assert (Hd : branch_default_mode "xai" "grok-3" = Some JSON) by reflexivity.
  split; [exact Hp|]. split; [exact Hd|].
  eexists. split; [vm_compute; reflexivity|].
  refine (proj1 (mode_override_or_branch_default sdk_world "xai" "grok-3" false
                   VNone (Some TOOLS) ∅ JSON _ Hp Hd _)).
  vm_compute. reflexivity.
Defined.

Lemma dispatch_model_name w async_client model_name mode provider kwargs :
  provider ∉ ["cohere"; "bedrock"] →
  returns_only (λ call, ac_field call "model" = Some (VStr model_name))
    (dispatch w async_client model_name mode provider kwargs).
Proof.
  intros Hp.
  dispatch_cases provider; open_branch; repeat returns_step;
    try field_of_call;
    exfalso; apply Hp; rewrite !elem_of_cons; tauto.
Qed.

(** Everything after the first "/" of the identifier is the model name the
    adapter factory receives, further "/" included, for every provider but
    cohere and bedrock. *)
Theorem model_name_reaches_adapter w p m async_client cache mode kwargs call :
  contains "/" p = false →
  p ∉ ["cohere"; "bedrock"] →
  outcome (from_provider w (p ++ "/" ++ m) async_client cache mode kwargs)
    = Ok call →
  ac_field call "model" = Some (VStr m).
Proof.
  intros Hsep Hp H. rewrite from_provider_first in H by done.
  by apply (dispatch_model_name _ _ _ _ _ _ Hp) in H.
Qed.

Lemma model_name_reaches_adapter_witness :
  contains "/" "fireworks" = false ∧
  ("fireworks" ∉ ["cohere"; "bedrock"]) ∧
  ∃ call,
    outcome (from_provider sdk_world
               ("fireworks" ++ "/" ++ "accounts/fireworks/models/llama-v3")
               false VNone None ∅) = Ok call ∧
    ac_field call "model" = Some (VStr "accounts/fireworks/models/llama-v3").
Proof.
  assert (Hsep : contains "/" "fireworks" = false) by reflexivity.
  assert (Hp : "fireworks" ∉ ["cohere"; "bedrock"]).
  { apply (bool_decide_unpack _). vm_compute. exact I. }
  split; [exact Hsep|]. split; [exact Hp|].
  eexists. split; [vm_compute; reflexivity|].
  apply (model_name_reaches_adapter sdk_world "fireworks"
           "accounts/fireworks/models/llama-v3" false VNone None ∅ _ Hsep Hp).
  vm_compute. reflexivity.
Defined.

(** The cohere and bedrock branches never use the model name or the mode:
    the call, its events included, is the same for every model name and every
    mode, and the adapter factory is given no model.  The bedrock branch
    does not use [async_client] either. *)
Theorem cohere_and_bedrock_ignore_model w m m' async_client async_client'
    cache mode mode' kwargs :
  from_provider w ("cohere/" ++ m) async_client cache mode kwargs =
    from_provider w ("cohere/" ++ m') async_client cache mode' kwargs ∧
  from_provider w ("bedrock/" ++ m) async_client cache mode kwargs =
    from_provider w ("bedrock/" ++ m') async_client' cache mode' kwargs ∧
  (∀ call,
     kwargs !! "model" = None →
     outcome (from_provider w ("cohere/" ++ m) async_client cache mode kwargs)
       = Ok call ∨
     outcome (from_provider w ("bedrock/" ++ m) async_client cache mode kwargs)
       = Ok call →
     ac_field call "model" = None).
Proof.
  change ("cohere/" ++ m) with ("cohere" ++ "/" ++ m).
  change ("cohere/" ++ m') with ("cohere" ++ "/" ++ m').
  change ("bedrock/" ++ m) with ("bedrock" ++ "/" ++ m).
  change ("bedrock/" ++ m') with ("bedrock" ++ "/" ++ m').
  rewrite !from_provider_first by reflexivity.
  split; [reflexivity|]. split; [reflexivity|].
  intros call Hmodel.
  assert (Hkw : with_cache cache kwargs !! "model" = None)
    by by rewrite with_cache_lookup_ne.
  revert call.
  assert (Hgoal : ∀ p, p = "cohere" ∨ p = "bedrock" →
    returns_only (λ call, ac_field call "model" = None)
      (dispatch w async_client m mode p (with_cache cache kwargs))).
  { intros p [-> | ->]; unfold dispatch;
      cbv beta iota delta [String.eqb Ascii.eqb Bool.eqb];
      open_branch; repeat returns_step;
      by rewrite ac_field_kwargs by done. }
  intros call [H|H].
  - exact (Hgoal "cohere" (or_introl eq_refl) call H).
  - exact (Hgoal "bedrock" (or_intror eq_refl) call H).
Qed.

Lemma dispatch_client_and_factory w async_client model_name mode provider
    kwargs :
  returns_only
    (λ call, nc_class (ac_client call) = native_class provider async_client ∧
             ac_factory call = adapter_factory provider)
    (dispatch w async_client model_name mode provider kwargs).
Proof.
  dispatch_cases provider; open_branch; repeat returns_step;
    by destruct async_client.
Qed.

(** A returning call built its native client with the class of the
    provider's SDK, the concurrent one exactly when [async_client] is set
    and the SDK has one (google, mistral, bedrock and the two deprecated
    aliases use one class for both), and handed it to the provider's adapter
    factory. *)
Theorem client_class_and_factory w p m async_client cache mode kwargs call :
  contains "/" p = false →
  outcome (from_provider w (p ++ "/" ++ m) async_client cache mode kwargs)
    = Ok call →
  nc_class (ac_client call) = native_class p async_client ∧
  ac_factory call = adapter_factory p ∧
  p ∈ supported_providers.
Proof.
  intros Hsep H. rewrite from_provider_first in H by done.
  destruct (dispatch_client_and_factory _ _ _ _ _ _ _ H) as [Hc Hf].
  split; [done|]. split; [done|].
  destruct (decide (p ∈ supported_providers)) as [|Hp]; [done|].
  by rewrite dispatch_unsupported in H.
Qed.

Lemma client_class_and_factory_witness :
  contains "/" "writer" = false ∧
  ∃ call,
    outcome (from_provider sdk_world ("writer" ++ "/" ++ "palmyra-x-004") true
               VNone None ∅) = Ok call ∧
    nc_class (ac_client call) = "writerai.AsyncWriter" ∧
    ac_factory call = "from_writer".
Proof.
  assert (Hsep : contains "/" "writer" = false) by reflexivity.
  split; [exact Hsep|]. eexists. split; [vm_compute; reflexivity|].
  assert (H := client_class_and_factory sdk_world "writer" "palmyra-x-004"
                 true VNone None ∅ _ Hsep eq_refl).
  split; [exact (proj1 H)|exact (proj1 (proj2 H))].
Defined.

(** ** A missing SDK *)

(** When the SDK module of a supported provider cannot be imported, the
    call raises an error whose message gives the [pip install] command of the
    provider's package: a [ConfigurationError] for openai, azure_openai,
    ollama and xai, an [ImportError] for the others.  Nothing but imports
    (and the warning of a deprecated alias) has happened by then: no
    environment variable was read and no client built. *)
Theorem missing_sdk_names_package w p m async_client cache mode kwargs :
  p ∈ supported_providers →
  find_spec w (sdk_module p) = false →
  ∃ msg,
    outcome (from_provider w (p ++ "/" ++ m) async_client cache mode kwargs) =
      Raise (if bool_decide (p ∈ configuration_error_on_import)
             then ConfigurationError msg else ImportError msg) ∧
    contains ("Install it with `pip install " ++ pip_package p ++ "`.") msg
      = true ∧
    emits_only imports_or_warns
      (from_provider w (p ++ "/" ++ m) async_client cache mode kwargs).
Proof.
  intros Hp Hdep. unfold supported_providers in Hp.
  repeat (apply elem_of_cons in Hp as [->|Hp]);
    [..|by apply elem_of_nil in Hp];
    rewrite from_provider_first by reflexivity;
    cbv beta iota delta [sdk_module String.eqb Ascii.eqb Bool.eqb] in Hdep;
    unfold dispatch; cbv beta iota delta [String.eqb Ascii.eqb Bool.eqb];
    autounfold with providers; rewrite (import_module_missing _ _ Hdep);
    eexists; (split; [vm_compute; reflexivity|]);
    (split; [vm_compute; reflexivity|]);
    unfold emits_only; vm_compute; repeat constructor.
Qed.

Lemma missing_sdk_names_package_witness :
  "writer" ∈ supported_providers ∧
  find_spec (World ∅ ∅) (sdk_module "writer") = false ∧
  ∃ msg,
    outcome (from_provider (World ∅ ∅) ("writer" ++ "/" ++ "palmyra-x-004")
               false VNone None ∅) = Raise (ImportError msg) ∧
    contains "Install it with `pip install writer-sdk`." msg = true.
Proof.
  assert (Hp : "writer" ∈ supported_providers).
  { apply (bool_decide_unpack _). vm_compute. exact I. }
  assert (Hdep : find_spec (World ∅ ∅) (sdk_module "writer") = false)
    by reflexivity.
  split; [exact Hp|]. split; [exact Hdep|].
  destruct (missing_sdk_names_package (World ∅ ∅) "writer" "palmyra-x-004"
              false VNone None ∅ Hp Hdep) as (msg & Hout & Hmsg & _).
  exists msg. split; [exact Hout|exact Hmsg].
Defined.

(** ** The Azure OpenAI branch *)

Lemma instructor_exports_from_openai w :
  instructor_exports w "from_openai" = true.
Proof. reflexivity. Qed.

(** With the SDK installed, the key taken from the keyword [api_key] or
    else from [AZURE_OPENAI_API_KEY], and the endpoint taken from the keyword
    [azure_endpoint] or else from [AZURE_OPENAI_ENDPOINT], both non-empty,
    the client is built from them and from [api_version] (default
    "2024-02-01"), and the three keywords are removed from what the adapter
    factory receives. *)
Theorem azure_resolves_configuration w m async_client cache mode
    (kwargs : gmap string value) :
  let key := default (from_option VStr VNone (environ w !! "AZURE_OPENAI_API_KEY"))
               (kwargs !! "api_key") in
  let endpoint :=
    default (from_option VStr VNone (environ w !! "AZURE_OPENAI_ENDPOINT"))
      (kwargs !! "azure_endpoint") in
  let version := default (VStr "2024-02-01") (kwargs !! "api_version") in
  find_spec w "openai" = true →
  kwargs_bound kwargs →
  truthy key = true →
  truthy endpoint = true →
  outcome (from_provider w ("azure_openai/" ++ m) async_client cache mode
             kwargs) =
    Ok (AdapterCall "from_openai"
          (NativeClient (if async_client then "openai.AsyncAzureOpenAI"
                         else "openai.AzureOpenAI") []
             [("api_key", key); ("api_version", version);
              ("azure_endpoint", endpoint)] ∅)
          [("model", VStr m); ("mode", VMode (mode_or mode TOOLS))]
          (delete "api_version"
             (delete "azure_endpoint"
                (delete "api_key" (with_cache cache kwargs))))).
Proof.
  intros key endpoint version Hdep Hbound Hkey Hendpoint.
  destruct (kwargs_bound_with_cache cache _ Hbound) as [Hmodel Hmode].
  change ("azure_openai/" ++ m) with ("azure_openai" ++ "/" ++ m).
  rewrite from_provider_first by reflexivity.
  change (dispatch w async_client m mode "azure_openai" ?kw)
    with (provider_azure_openai w async_client m mode kw).
  unfold provider_azure_openai.
  destruct async_client.
  all: erewrite try_except_ImportError_ok; [reflexivity|].
  all: run; rewrite import_module_ok by done; run.
  all: rewrite import_from_instructor_ok by reflexivity; run.
  all: rewrite !lookup_delete_ne, !with_cache_lookup_ne by done.
  all: fold key endpoint version; rewrite Hkey, Hendpoint; cbn [negb].
  all: rewrite construct_plain; run.
  all: rewrite call_adapter_ok; [done|].
  all: repeat constructor; cbn [fst]; by simplify_map_eq.
Qed.

Lemma azure_resolves_configuration_witness :
  find_spec sdk_world "openai" = true ∧
  kwargs_bound {["api_key" := VStr "kw-key";
                 "azure_endpoint" := VStr "https://kw.example"]} ∧
  outcome (from_provider sdk_world ("azure_openai/" ++ "gpt-4o") true VNone
             None {["api_key" := VStr "kw-key";
                    "azure_endpoint" := VStr "https://kw.example"]}) =
    Ok (AdapterCall "from_openai"
          (NativeClient "openai.AsyncAzureOpenAI" []
             [("api_key", VStr "kw-key"); ("api_version", VStr "2024-02-01");
              ("azure_endpoint", VStr "https://kw.example")] ∅)
          [("model", VStr "gpt-4o"); ("mode", VMode TOOLS)] ∅).
Proof.
  assert (Hdep : find_spec sdk_world "openai" = true) by reflexivity.
  assert (Hbound : kwargs_bound {["api_key" := VStr "kw-key";
                     "azure_endpoint" := VStr "https://kw.example"]})
    by (repeat split; reflexivity).
  split; [exact Hdep|]. split; [exact Hbound|].
  rewrite (azure_resolves_configuration sdk_world "gpt-4o" true VNone None _
             Hdep Hbound eq_refl eq_refl).
  vm_compute. reflexivity.
Defined.

(** With the SDK installed, a missing (or empty) key makes the branch raise
    the [ConfigurationError] about [AZURE_OPENAI_API_KEY], also when the
    endpoint is missing too; with a key and no endpoint it raises the one
    about [AZURE_OPENAI_ENDPOINT].  Both messages name the keyword to pass
    instead, and no client has been built. *)
Theorem azure_missing_configuration w m async_client cache mode
    (kwargs : gmap string value) :
  let key := default (from_option VStr VNone (environ w !! "AZURE_OPENAI_API_KEY"))
               (kwargs !! "api_key") in
  let endpoint :=
    default (from_option VStr VNone (environ w !! "AZURE_OPENAI_ENDPOINT"))
      (kwargs !! "azure_endpoint") in
  let call := from_provider w ("azure_openai/" ++ m) async_client cache mode
                kwargs in
  find_spec w "openai" = true →
  truthy key = false ∨ truthy endpoint = false →
  ∃ msg,
    outcome call = Raise (ConfigurationError msg) ∧
    emits_only builds_no_client call ∧
    (if truthy key
     then contains "AZURE_OPENAI_ENDPOINT is not set." msg = true ∧
          contains "or pass it as kwarg azure_endpoint=" msg = true
     else contains "AZURE_OPENAI_API_KEY is not set." msg = true ∧
          contains "or pass it as kwarg api_key=" msg = true).
Proof.
  intros key endpoint call Hdep Hmissing. unfold call.
  change ("azure_openai/" ++ m) with ("azure_openai" ++ "/" ++ m).
  rewrite from_provider_first by reflexivity.
  change (dispatch w async_client m mode "azure_openai" ?kw)
    with (provider_azure_openai w async_client m mode kw).
  unfold provider_azure_openai, emits_only.
  run; rewrite import_module_ok by done; run.
  rewrite import_from_instructor_ok by reflexivity; run.
  rewrite !lookup_delete_ne, !with_cache_lookup_ne by done.
  fold key endpoint.
  destruct (truthy key) eqn:Hkey; cbn [negb].
  - destruct Hmissing as [?|Hendpoint]; [done|]. rewrite Hendpoint. cbn [negb].
    eexists. split; [reflexivity|]. split; [|by vm_compute].
    cbn. repeat constructor.
  - eexists. split; [reflexivity|]. split; [|by vm_compute].
    cbn. repeat constructor.
Qed.

Lemma azure_missing_configuration_witness :
  find_spec sdk_world "openai" = true ∧
  ∃ msg,
    outcome (from_provider sdk_world ("azure_openai/" ++ "gpt-4o") false VNone
               None {["api_key" := VStr "kw-key"]})
      = Raise (ConfigurationError msg) ∧
    contains "AZURE_OPENAI_ENDPOINT is not set." msg = true.
Proof.
  assert (Hdep : find_spec sdk_world "openai" = true) by reflexivity.
  split; [exact Hdep|].
  pose proof (azure_missing_configuration sdk_world "gpt-4o" false VNone None
                {["api_key" := VStr "kw-key"]} Hdep) as H.
  cbv zeta in H. destruct H as (msg & Hout & _ & Hmsg);
    [right; vm_compute; reflexivity|].
  exists msg. split; [exact Hout|]. exact (proj1 Hmsg).
Defined.

(** ** The Google branches *)

(** Whenever a google call returns, its client was built with [vertexai]
    (default [False]), with the API key from the keyword [api_key] or else
    from [GOOGLE_API_KEY] ([None] when neither is there: the branch itself
    never raises for a missing key), and with those of [debug_config],
    [http_options], [credentials], [project] and [location] that the caller
    passed; none of these seven keywords is among the keyword arguments of
    the adapter factory. *)
Theorem google_client_configuration w m (async_client : bool) cache mode
    (kwargs : gmap string value) call :
  outcome (from_provider w ("google/" ++ m) async_client cache mode kwargs)
    = Ok call →
  ac_factory call = "from_genai" ∧
  nc_class (ac_client call) = "google.genai.Client" ∧
  nc_field (ac_client call) "vertexai" =
    Some (default (VBool false) (kwargs !! "vertexai")) ∧
  nc_field (ac_client call) "api_key" =
    Some (default (from_option VStr VNone (environ w !! "GOOGLE_API_KEY"))
            (kwargs !! "api_key")) ∧
  (∀ k, k ∈ google_client_keys →
        nc_field (ac_client call) k = kwargs !! k) ∧
  (∀ k, k ∈ "vertexai" :: "api_key" :: google_client_keys →
        ac_kwargs call !! k = None).
Proof.
  change ("google/" ++ m) with ("google" ++ "/" ++ m).
  rewrite from_provider_first by reflexivity.
  change (dispatch w async_client m mode "google" ?kw)
    with (provider_google w async_client m kw).
  intros (Hf & Hc & Hv & Hkey & Hkeys & Hgone & _)%provider_google_returns.
  rewrite !with_cache_lookup_ne in Hv, Hkey by done.
  repeat (split; [done|]). split; [|done].
  intros k Hk. rewrite (Hkeys k Hk). apply with_cache_lookup_ne.
  apply google_client_keys_elem in Hk.
  intros ->; decompose [or] Hk; discriminate.
Qed.

Lemma google_client_configuration_witness :
  ∃ call,
    outcome (from_provider
               (World all_installed {["GOOGLE_API_KEY" := "env-key"]})
               ("google/" ++ "gemini-pro") false VNone None
               {["api_key" := VStr "kw-key"]}) = Ok call ∧
    nc_field (ac_client call) "vertexai" = Some (VBool false) ∧
    nc_field (ac_client call) "api_key" = Some (VStr "kw-key") ∧
    ac_kwargs call !! "api_key" = None.
Proof.
  eexists. split; [vm_compute; reflexivity|].
  lazymatch goal with
  | |- nc_field (ac_client ?c) _ = _ ∧ _ =>
      assert (Hout :
        outcome (from_provider
                   (World all_installed {["GOOGLE_API_KEY" := "env-key"]})
                   ("google/" ++ "gemini-pro") false VNone None
                   {["api_key" := VStr "kw-key"]}) = Ok c)
        by (vm_compute; reflexivity)
  end.
  destruct (google_client_configuration _ _ _ _ _ _ _ Hout)
    as (_ & _ & Hv & Hkey & _ & Hgone).
  split; [exact Hv|]. split; [exact Hkey|].
  apply Hgone. rewrite !elem_of_cons. tauto.
Defined.

(** When none of the listed keys is present the loop moves nothing. *)
Lemma extract_client_kwargs_absent keys (kwargs : gmap string value) :
  (∀ k, k ∈ keys → kwargs !! k = None) →
  extract_client_kwargs keys kwargs = (∅, kwargs).
Proof.
  unfold extract_client_kwargs. generalize (∅ : gmap string value).
  induction keys as [|key keys IH]; intros acc Hnone; [done|].
  cbn [fold_left]. rewrite (Hnone key) by (apply elem_of_cons; by left).
  apply IH. intros k Hk. apply Hnone, elem_of_cons. by right.
Qed.

(** With the SDK installed and neither [vertexai] nor a client option among
    the keyword arguments, the deprecated "generative-ai" token does what
    "google" does, one deprecation warning apart: same events after the
    warning, same client, same adapter call (or same [TypeError]). *)
Theorem generative_ai_is_google w m async_client cache mode
    (kwargs : gmap string value) :
  find_spec w "google" = true →
  find_spec w "google.genai" = true →
  kwargs !! "vertexai" = None →
  (∀ k, k ∈ google_client_keys → kwargs !! k = None) →
  ∃ warning,
    events (from_provider w ("generative-ai/" ++ m) async_client cache mode
              kwargs) =
      EWarn "DeprecationWarning" warning ::
      events (from_provider w ("google/" ++ m) async_client cache mode kwargs)
    ∧
    outcome (from_provider w ("generative-ai/" ++ m) async_client cache mode
               kwargs) =
      outcome (from_provider w ("google/" ++ m) async_client cache mode kwargs).
Proof.
  intros Hg Hgg Hv Hkeys.
  change ("generative-ai/" ++ m) with ("generative-ai" ++ "/" ++ m).
  change ("google/" ++ m) with ("google" ++ "/" ++ m).
  rewrite !from_provider_first by reflexivity.
  change (dispatch w async_client m mode "google" ?kw)
    with (provider_google w async_client m kw).
  change (dispatch w async_client m mode "generative-ai" ?kw)
    with (provider_generative_ai w async_client m kw).
  set (kw := with_cache cache kwargs).
  assert (Hv' : kw !! "vertexai" = None)
    by (unfold kw; by rewrite with_cache_lookup_ne).
  assert (Hkeys' : ∀ k, k ∈ google_client_keys →
                        delete "api_key" kw !! k = None).
  { intros k Hk. pose proof Hk as Hk'. apply google_client_keys_elem in Hk'.
    unfold kw. rewrite lookup_delete_ne, with_cache_lookup_ne.
    - by apply Hkeys.
    - intros ->; decompose [or] Hk'; discriminate.
    - intros ?; subst k; decompose [or] Hk'; discriminate. }
  unfold provider_google, provider_generative_ai, dict_pop.
  rewrite Hv', (delete_id kw "vertexai") by done.
  cbn [default from_option id].
  rewrite !import_module_ok by done.
  rewrite !import_from_instructor_ok
    by by apply instructor_exports_from_genai.
  run. rewrite (extract_client_kwargs_absent _ _ Hkeys').
  rewrite !construct_plain. run.
  destruct async_client; unfold call_adapter, check_keywords;
    destruct (duplicate_keyword _ _); eexists; split; reflexivity.
Qed.

Lemma generative_ai_is_google_witness :
  find_spec sdk_world "google" = true ∧
  find_spec sdk_world "google.genai" = true ∧
  ({["api_key" := VStr "kw-key"]} : gmap string value) !! "vertexai" = None ∧
  (∀ k, k ∈ google_client_keys →
        ({["api_key" := VStr "kw-key"]} : gmap string value) !! k = None) ∧
  outcome (from_provider sdk_world ("generative-ai/" ++ "gemini-pro") true
             VNone None {["api_key" := VStr "kw-key"]}) =
    outcome (from_provider sdk_world ("google/" ++ "gemini-pro") true VNone
               None {["api_key" := VStr "kw-key"]}).
Proof.
  assert (Hg : find_spec sdk_world "google" = true) by reflexivity.
  assert (Hgg : find_spec sdk_world "google.genai" = true) by reflexivity.
  assert (Hv : ({["api_key" := VStr "kw-key"]} : gmap string value)
                 !! "vertexai" = None) by reflexivity.
  assert (Hkeys : ∀ k, k ∈ google_client_keys →
            ({["api_key" := VStr "kw-key"]} : gmap string value) !! k = None).
  { intros k Hk. apply google_client_keys_elem in Hk.
    decompose [or] Hk; subst k; reflexivity. }
  repeat (split; [assumption|]).
  destruct (generative_ai_is_google sdk_world "gemini-pro" true VNone None _
              Hg Hgg Hv Hkeys) as (warning & _ & Hout).
  exact Hout.
Defined.

(** Whenever a call with the deprecated "vertexai" token returns, the
    project it used, the keyword [project] or else [GOOGLE_CLOUD_PROJECT],
    is non-empty; the location is the keyword [location], or else
    [GOOGLE_CLOUD_LOCATION], or else "us-central1"; the client was built
    with [vertexai=True], that project, that location and every remaining
    keyword argument, and [from_genai] received the same remaining keyword
    arguments with the model name added. *)
Theorem vertexai_resolves_project_and_location w m (async_client : bool)
    cache mode (kwargs : gmap string value) call :
  let project :=
    default (from_option VStr VNone (environ w !! "GOOGLE_CLOUD_PROJECT"))
      (kwargs !! "project") in
  let location :=
    default (from_option VStr (VStr "us-central1")
               (environ w !! "GOOGLE_CLOUD_LOCATION"))
      (kwargs !! "location") in
  let rest := delete "location" (delete "project" (with_cache cache kwargs)) in
  outcome (from_provider w ("vertexai/" ++ m) async_client cache mode kwargs)
    = Ok call →
  truthy project = true ∧
  call = AdapterCall "from_genai"
           (NativeClient "google.genai.Client" []
              [("vertexai", VBool true); ("project", project);
               ("location", location)] rest)
           (if async_client then [("use_async", VBool true)] else [])
           (<["model" := VStr m]> rest).
Proof.
  intros project location rest.
  change ("vertexai/" ++ m) with ("vertexai" ++ "/" ++ m).
  rewrite from_provider_first by reflexivity.
  change (dispatch w async_client m mode "vertexai" ?kw)
    with (provider_vertexai w async_client m kw).
  intros H%provider_vertexai_returns.
  by rewrite !with_cache_lookup_ne in H by done.
Qed.

Lemma vertexai_resolves_project_and_location_witness :
  outcome (from_provider vertex_world ("vertexai/" ++ "gemini-pro") false
             VNone None ∅) =
    Ok (AdapterCall "from_genai"
          (NativeClient "google.genai.Client" []
             [("vertexai", VBool true); ("project", VStr "my-project");
              ("location", VStr "us-central1")] ∅)
          [] {["model" := VStr "gemini-pro"]}).
Proof.
  assert (Hout : ∃ call,
    outcome (from_provider vertex_world ("vertexai/" ++ "gemini-pro") false
               VNone None ∅) = Ok call)
    by (eexists; vm_compute; reflexivity).
  destruct Hout as [call Hout]. rewrite Hout.
  destruct (vertexai_resolves_project_and_location vertex_world "gemini-pro"
              false VNone None ∅ call Hout) as [_ ->].
  vm_compute. reflexivity.
Defined.

(** ** The Mistral and Ollama branches *)

(** With the SDK installed, the mistral branch builds its client from a
    non-empty [MISTRAL_API_KEY] and forwards every keyword argument
    untouched, adding [use_async=True] for an async client; when the
    variable is unset or empty the call raises, and no client is built. *)
Theorem mistral_key_from_environment w m async_client cache mode
    (kwargs : gmap string value) :
  let call :=
    from_provider w ("mistral/" ++ m) async_client cache mode kwargs in
  find_spec w "mistralai" = true →
  kwargs_bound kwargs →
  kwargs !! "use_async" = None →
  (∀ key, environ w !! "MISTRAL_API_KEY" = Some key → key ≠ "" →
     outcome call =
       Ok (AdapterCall "from_mistral"
             (NativeClient "mistralai.Mistral" [] [("api_key", VStr key)] ∅)
             (if async_client
              then [("model", VStr m); ("use_async", VBool true)]
              else [("model", VStr m)])
             (with_cache cache kwargs))) ∧
  (environ w !! "MISTRAL_API_KEY" = None ∨
   environ w !! "MISTRAL_API_KEY" = Some "" →
     (∃ e, outcome call = Raise e) ∧ emits_only builds_no_client call).
Proof.
  intros call Hdep (Hmodel & _ & _ & _) Hasync. unfold call.
  change ("mistral/" ++ m) with ("mistral" ++ "/" ++ m).
  rewrite from_provider_first by reflexivity.
  change (dispatch w async_client m mode "mistral" ?kw)
    with (provider_mistral w async_client m kw).
  unfold provider_mistral, emits_only.
  rewrite import_module_ok by done. run.
  rewrite import_from_instructor_ok by exact Hdep. run.
  split.
  - intros key Hkey Hne. rewrite Hkey. cbn [from_option truthy].
    apply String.eqb_neq in Hne. rewrite Hne. cbn [negb].
    rewrite construct_plain. run.
    destruct async_client; (rewrite call_adapter_ok; [done|]);
      repeat constructor; cbn [fst]; by rewrite with_cache_lookup_ne.
  - intros [Hkey|Hkey]; rewrite Hkey; cbn; (split; [by eexists|]);
      repeat constructor.
Qed.

Lemma mistral_key_from_environment_witness :
  find_spec (World all_installed {["MISTRAL_API_KEY" := "env-key"]})
    "mistralai" = true ∧
  kwargs_bound {["api_key" := VStr "kw-key"]} ∧
  ({["api_key" := VStr "kw-key"]} : gmap string value) !! "use_async" = None ∧
  outcome (from_provider
             (World all_installed {["MISTRAL_API_KEY" := "env-key"]})
             ("mistral/" ++ "mistral-large-latest") true VNone None
             {["api_key" := VStr "kw-key"]}) =
    Ok (AdapterCall "from_mistral"
          (NativeClient "mistralai.Mistral" [] [("api_key", VStr "env-key")] ∅)
          [("model", VStr "mistral-large-latest"); ("use_async", VBool true)]
          {["api_key" := VStr "kw-key"]}).
Proof.
  assert (Hdep : find_spec (World all_installed {["MISTRAL_API_KEY" := "env-key"]})
                   "mistralai" = true) by reflexivity.
  assert (Hbound : kwargs_bound {["api_key" := VStr "kw-key"]})
    by (repeat split; reflexivity).
  assert (Hasync : ({["api_key" := VStr "kw-key"]} : gmap string value)
                     !! "use_async" = None) by reflexivity.
  repeat (split; [assumption|]).
  apply (proj1 (mistral_key_from_environment _ "mistral-large-latest" true
                  VNone None _ Hdep Hbound Hasync) "env-key");
    [reflexivity|discriminate].
Defined.



(** ** Events of a call: environment reads and warnings *)

Section EmitsOnly.

Context {A B : Type} (Q : event → bool).

Lemma emits_only_ret (a : A) : emits_only Q (mret a).
Proof. constructor. Qed.

Lemma emits_only_raise (e : exn) : emits_only Q (raise (A := A) e).
Proof. constructor. Qed.

Lemma emits_only_emit (ev : event) : Q ev = true → emits_only Q (emit ev).
Proof. by repeat constructor. Qed.

Lemma emits_only_bind (m : M A) (k : A → M B) :
  emits_only Q m → (∀ a, emits_only Q (k a)) → emits_only Q (m ≫= k).
Proof.
  unfold emits_only. intros Hm Hk. destruct m as [t [a|e]]; cbn; [|done].
  specialize (Hk a). destruct (k a) as [t' r]. by apply Forall_app.
Qed.

Lemma emits_only_try_ImportError (body handler : M A) :
  emits_only Q body → emits_only Q handler →
  emits_only Q (try_except_ImportError body handler).
Proof.
  unfold emits_only, try_except_ImportError. intros Hb Hh.
  destruct body as [t [a|[]]]; try done.
  destruct handler as [t' r]. by apply Forall_app.
Qed.

End EmitsOnly.

Lemma emits_only_check_keywords Q callee keywords kwargs :
  emits_only Q (check_keywords callee keywords kwargs).
Proof.
  unfold check_keywords. destruct (duplicate_keyword _ _); constructor.
Qed.

Ltac emits_step :=
  match goal with
  | |- emits_only _ (try_except_ImportError _ _) =>
      apply emits_only_try_ImportError
  | |- emits_only _ (_ ≫= _) => apply emits_only_bind; [|intros ?]
  | |- emits_only _ (mret _) => apply emits_only_ret
  | |- emits_only _ (raise _) => apply emits_only_raise
  | |- emits_only _ (emit _) => apply emits_only_emit
  | |- emits_only _ (check_keywords _ _ _) => apply emits_only_check_keywords
  | |- emits_only _ (if ?b then _ else _) => destruct b
  | |- emits_only _ (match ?p with (_, _) => _ end) => destruct p
  | |- emits_only _ (import_module _ _) => unfold import_module
  | |- emits_only _ (import_from_instructor _ _) =>
      unfold import_from_instructor
  | |- emits_only _ (import_always _) => unfold import_always
  | |- emits_only _ (warn_deprecated _) => unfold warn_deprecated
  | |- emits_only _ (environ_get _ _) => unfold environ_get
  | |- emits_only _ (environ_get_default _ _ _) => unfold environ_get_default
  | |- emits_only _ (construct _ _ _ _) => unfold construct
  | |- emits_only _ (call_adapter _ _ _ _) => unfold call_adapter
  | |- emits_only _ (raise_ConfigurationError _) =>
      unfold raise_ConfigurationError
  end.

Lemma dispatch_reads_branch_variables w async_client model_name mode provider
    kwargs :
  emits_only (reads_only (branch_variables provider))
    (dispatch w async_client model_name mode provider kwargs).
Proof.
  dispatch_cases provider; autounfold with providers; repeat emits_step;
    reflexivity.
Qed.

(** The [os.environ.get] calls that [from_provider] itself makes are those
    of the branch taken: the key and endpoint variables of azure_openai,
    [GOOGLE_API_KEY] for google and generative-ai, [MISTRAL_API_KEY],
    [PERPLEXITY_API_KEY], the project and location variables of vertexai.
    For the other providers and for a malformed identifier it makes none;
    what an SDK constructor reads on its own is outside this statement. *)
Theorem environment_reads_of_branch w model async_client cache mode kwargs :
  (contains "/" model = false →
   emits_only (reads_only [])
     (from_provider w model async_client cache mode kwargs)) ∧
  (∀ p m, model = p ++ "/" ++ m → contains "/" p = false →
     emits_only (reads_only (branch_variables p))
       (from_provider w model async_client cache mode kwargs)) ∧
  (∀ p, p ∈ ["openai"; "anthropic"; "cohere"; "groq"; "writer"; "bedrock";
             "cerebras"; "fireworks"; "ollama"; "xai"] →
        branch_variables p = []).
Proof.
  split; [|split].
  - intros Hsep. rewrite from_provider_absent by done. by repeat constructor.
  - intros p m -> Hp. rewrite from_provider_first by done.
    apply dispatch_reads_branch_variables.
  - intros p Hp. repeat (apply elem_of_cons in Hp as [->|Hp]); try reflexivity.
    by apply elem_of_nil in Hp.
Qed.

Lemma dispatch_silent w async_client model_name mode provider kwargs :
  provider ∉ deprecated_providers →
  silent (dispatch w async_client model_name mode provider kwargs).
Proof.
  intros Hp.
  dispatch_cases provider; autounfold with providers;
    try (exfalso; apply Hp; unfold deprecated_providers;
         rewrite !elem_of_cons; tauto);
    repeat silent_step.
Qed.

Lemma dispatch_deprecated_warns_once w async_client model_name mode provider
    kwargs :
  provider ∈ deprecated_providers →
  ∃ msg,
    warnings (dispatch w async_client model_name mode provider kwargs) =
      [EWarn "DeprecationWarning" msg] ∧
    contains "Use 'google' provider" msg = true.
Proof.
  unfold deprecated_providers. rewrite !elem_of_cons, elem_of_nil.
  intros [->|[->|[]]]; unfold dispatch;
    cbv beta iota delta [String.eqb Ascii.eqb Bool.eqb];
    autounfold with providers; unfold warn_deprecated;
    match goal with
    | |- context [try_except_ImportError ?b ?h] =>
        assert (Hs : silent (try_except_ImportError b h))
          by (repeat silent_step);
        apply silent_warnings in Hs; revert Hs;
        generalize (try_except_ImportError b h)
    end;
    intros [t r] Hs; unfold warnings in *; cbn in *; rewrite Hs;
    eexists; (split; [reflexivity|by vm_compute]).
Qed.

(** A call warns exactly when its provider token is one of the deprecated
    aliases "vertexai" and "generative-ai": then it emits one
    [DeprecationWarning], which points to the google provider, whether or not
    the call goes on to succeed.  Every other call, a malformed or
    unsupported identifier included, emits no warning. *)
Theorem warnings_of_call w model async_client cache mode kwargs :
  (contains "/" model = false →
   warnings (from_provider w model async_client cache mode kwargs) = []) ∧
  (∀ p m, model = p ++ "/" ++ m → contains "/" p = false →
     if bool_decide (p ∈ deprecated_providers)
     then ∃ msg,
            warnings (from_provider w model async_client cache mode kwargs) =
              [EWarn "DeprecationWarning" msg] ∧
            contains "Use 'google' provider" msg = true
     else warnings (from_provider w model async_client cache mode kwargs) = []).
Proof.
  split.
  - intros Hsep. by rewrite from_provider_absent.
  - intros p m -> Hsep. rewrite from_provider_first by done.
    case_bool_decide as Hp.
    + by apply dispatch_deprecated_warns_once.
    + by apply silent_warnings, dispatch_silent.
Qed.

(** ** The kinds of exception of each branch *)








(** ** Missing configuration of the Perplexity and Vertex AI branches *)

(** With the SDK installed, neither a non-empty [PERPLEXITY_API_KEY] nor a
    truthy [api_key] keyword, the perplexity branch raises [ValueError]
    naming the variable and the keyword; the OpenAI client has not been
    built. *)
Theorem perplexity_missing_key w m async_client cache mode
    (kwargs : gmap string value) :
  let call :=
    from_provider w ("perplexity/" ++ m) async_client cache mode kwargs in
  find_spec w "openai" = true →
  truthy (from_option VStr VNone (environ w !! "PERPLEXITY_API_KEY")) = false →
  truthy (default VNone (kwargs !! "api_key")) = false →
  ∃ msg,
    outcome call = Raise (ValueError msg) ∧
    contains "PERPLEXITY_API_KEY is not set." msg = true ∧
    contains "or pass it as a kwarg api_key=" msg = true ∧
    emits_only builds_no_client call.
Proof.
  intros call Hdep Henv Hkw. unfold call.
  change ("perplexity/" ++ m) with ("perplexity" ++ "/" ++ m).
  rewrite from_provider_first by reflexivity.
  change (dispatch w async_client m mode "perplexity" ?kw)
    with (provider_perplexity w async_client m kw).
  unfold provider_perplexity, emits_only, dict_get.
  rewrite import_module_ok by done. run.
  rewrite import_from_instructor_ok by exact Hdep. run.
  rewrite Henv, with_cache_lookup_ne, Hkw by done.
  eexists. split; [reflexivity|]. split; [by vm_compute|].
  split; [by vm_compute|]. cbn. repeat constructor.
Qed.

Lemma perplexity_missing_key_witness :
  find_spec sdk_world "openai" = true ∧
  truthy (from_option VStr VNone (environ sdk_world !! "PERPLEXITY_API_KEY"))
    = false ∧
  truthy (default VNone
            (({["api_key" := VStr ""]} : gmap string value) !! "api_key"))
    = false ∧
  ∃ msg,
    outcome (from_provider sdk_world ("perplexity/" ++ "sonar") true VNone
               None {["api_key" := VStr ""]}) = Raise (ValueError msg).
Proof.
  assert (Hdep : find_spec sdk_world "openai" = true) by reflexivity.
  assert (Henv : truthy (from_option VStr VNone
                   (environ sdk_world !! "PERPLEXITY_API_KEY")) = false)
    by reflexivity.
  assert (Hkw : truthy (default VNone
                  (({["api_key" := VStr ""]} : gmap string value)
                     !! "api_key")) = false) by reflexivity.
  repeat (split; [assumption|]).
  destruct (perplexity_missing_key sdk_world "sonar" true VNone None
              {["api_key" := VStr ""]} Hdep Henv Hkw) as (msg & Hout & _).
  by exists msg.
Defined.

(** With the SDK installed and neither a truthy [project] keyword nor, in
    its absence, a non-empty [GOOGLE_CLOUD_PROJECT], the vertexai branch
    raises [ValueError] naming the variable and the keyword, after its
    deprecation warning and before [genai.Client] is called. *)
Theorem vertexai_missing_project w m async_client cache mode
    (kwargs : gmap string value) :
  let call :=
    from_provider w ("vertexai/" ++ m) async_client cache mode kwargs in
  find_spec w "google" = true →
  find_spec w "google.genai" = true →
  truthy (default (from_option VStr VNone (environ w !! "GOOGLE_CLOUD_PROJECT"))
            (kwargs !! "project")) = false →
  ∃ msg,
    outcome call = Raise (ValueError msg) ∧
    contains "export GOOGLE_CLOUD_PROJECT=" msg = true ∧
    contains "or pass it as kwarg project=" msg = true ∧
    emits_only builds_no_client call ∧
    length (warnings call) = 1.
Proof.
  intros call Hg Hgg Hproject. unfold call.
  change ("vertexai/" ++ m) with ("vertexai" ++ "/" ++ m).
  rewrite from_provider_first by reflexivity.
  change (dispatch w async_client m mode "vertexai" ?kw)
    with (provider_vertexai w async_client m kw).
  unfold provider_vertexai, emits_only, warnings.
  rewrite import_module_ok by done. run.
  rewrite import_from_instructor_ok by by apply instructor_exports_from_genai.
  run. rewrite with_cache_lookup_ne, Hproject by done. cbn [negb].
  eexists. split; [reflexivity|]. split; [by vm_compute|].
  split; [by vm_compute|]. split; [|reflexivity]. cbn. repeat constructor.
Qed.

Lemma vertexai_missing_project_witness :
  find_spec sdk_world "google" = true ∧
  find_spec sdk_world "google.genai" = true ∧
  truthy (default (from_option VStr VNone
                     (environ sdk_world !! "GOOGLE_CLOUD_PROJECT"))
            (({["location" := VStr "europe-west1"]} : gmap string value)
               !! "project")) = false ∧
  ∃ msg,
    outcome (from_provider sdk_world ("vertexai/" ++ "gemini-pro") false VNone
               None {["location" := VStr "europe-west1"]})
      = Raise (ValueError msg).
Proof.
  assert (Hg : find_spec sdk_world "google" = true) by reflexivity.
  assert (Hgg : find_spec sdk_world "google.genai" = true) by reflexivity.
  assert (Hp : truthy (default (from_option VStr VNone
                         (environ sdk_world !! "GOOGLE_CLOUD_PROJECT"))
                 (({["location" := VStr "europe-west1"]}
                     : gmap string value) !! "project")) = false)
    by reflexivity.
  repeat (split; [assumption|]).
  destruct (vertexai_missing_project sdk_world "gemini-pro" false VNone None
              {["location" := VStr "europe-west1"]} Hg Hgg Hp)
    as (msg & Hout & _).
  by exists msg.
Defined.

(** ** The identifier parser as a round trip *)

(** The parser accepts exactly the strings of the form provider, "/",
    model name with no "/" in the provider part, and gives back those two
    parts: gluing them with "/" restores the identifier. *)
Theorem parse_model_round_trip model p m :
  outcome (parse_model model) = Ok (p, m) ↔
  model = p ++ "/" ++ m ∧ contains "/" p = false.
Proof.
  split.
  - intros H. destruct (contains "/" model) eqn:Hsep.
    + destruct (split_once_present _ Hsep) as (p' & m' & -> & Hp').
      rewrite parse_model_first in H by done. by injection H as <- <-.
    + by rewrite parse_model_absent in H.
  - intros [-> Hp]. by rewrite parse_model_first.
Qed.

(** ** The Perplexity endpoint, and a keyword given twice *)

(** With the SDK installed, a non-empty [PERPLEXITY_API_KEY] and no
    [api_key] keyword, the perplexity branch builds an OpenAI client for
    "https://api.perplexity.ai" with that key; every keyword argument, a
    [base_url] included, goes to the adapter factory and not to the client,
    and no mode is passed. *)
Theorem perplexity_endpoint_is_fixed w m async_client cache mode
    (kwargs : gmap string value) key :
  find_spec w "openai" = true →
  kwargs_bound kwargs →
  kwargs !! "api_key" = None →
  environ w !! "PERPLEXITY_API_KEY" = Some key →
  key ≠ "" →
  outcome (from_provider w ("perplexity/" ++ m) async_client cache mode kwargs)
    = Ok (AdapterCall "from_perplexity"
            (NativeClient (if async_client then "openai.AsyncOpenAI"
                           else "openai.OpenAI") []
               [("api_key", VStr key);
                ("base_url", VStr "https://api.perplexity.ai")] ∅)
            [("model", VStr m)]
            (with_cache cache kwargs)).
Proof.
  intros Hdep (Hmodel & _ & _ & _) _ Hkey Hne.
  apply String.eqb_neq in Hne.
  change ("perplexity/" ++ m) with ("perplexity" ++ "/" ++ m).
  rewrite from_provider_first by reflexivity.
  change (dispatch w async_client m mode "perplexity" ?kw)
    with (provider_perplexity w async_client m kw).
  unfold provider_perplexity. destruct async_client.
  all: erewrite try_except_ImportError_ok; [reflexivity|].
  all: rewrite import_module_ok by done; run.
  all: rewrite import_from_instructor_ok by exact Hdep; run.
  all: rewrite Hkey; cbn [from_option truthy]; rewrite Hne; cbn [negb]; run.
  all: rewrite construct_plain; run.
  all: rewrite call_adapter_ok; [done|].
  all: repeat constructor; cbn [fst]; by rewrite with_cache_lookup_ne.
Qed.

Lemma perplexity_endpoint_is_fixed_witness :
  find_spec perplexity_world "openai" = true ∧
  kwargs_bound {["base_url" := VStr "https://proxy.example"]} ∧
  ({["base_url" := VStr "https://proxy.example"]} : gmap string value)
    !! "api_key" = None ∧
  environ perplexity_world !! "PERPLEXITY_API_KEY" = Some "env-key" ∧
  "env-key" ≠ "" ∧
  outcome (from_provider perplexity_world ("perplexity/" ++ "sonar") false
             VNone None {["base_url" := VStr "https://proxy.example"]})
    = Ok (AdapterCall "from_perplexity"
            (NativeClient "openai.OpenAI" []
               [("api_key", VStr "env-key");
                ("base_url", VStr "https://api.perplexity.ai")] ∅)
            [("model", VStr "sonar")]
            {["base_url" := VStr "https://proxy.example"]}).
Proof.
  assert (Hdep : find_spec perplexity_world "openai" = true) by reflexivity.
  assert (Hbound : kwargs_bound {["base_url" := VStr "https://proxy.example"]})
    by (repeat split; reflexivity).
  assert (Hkw : ({["base_url" := VStr "https://proxy.example"]}
                   : gmap string value) !! "api_key" = None) by reflexivity.
  assert (Hkey : environ perplexity_world !! "PERPLEXITY_API_KEY"
                 = Some "env-key") by reflexivity.
  assert (Hne : "env-key" ≠ "") by discriminate.
  repeat (split; [assumption|]).
  exact (perplexity_endpoint_is_fixed perplexity_world "sonar" false VNone None
           _ "env-key" Hdep Hbound Hkw Hkey Hne).
Defined.

Lemma duplicate_keyword_None keywords (kwargs : gmap string value) k :
  duplicate_keyword keywords kwargs = None →
  k ∈ map fst keywords → kwargs !! k = None.
Proof.
  unfold duplicate_keyword. intros Hfind Hk. apply list_elem_of_In in Hk.
  pose proof (List.find_none _ _ Hfind k Hk) as Hb. cbn beta in Hb.
  apply bool_decide_eq_false in Hb.
  destruct (kwargs !! k); [|done]. exfalso. by apply Hb.
Qed.

Lemma dispatch_duplicate_use_async w model_name mode provider
    (kwargs : gmap string value) v :
  provider ∈ ["google"; "generative-ai"; "mistral"; "vertexai"] →
  kwargs !! "use_async" = Some v →
  returns_only (λ _, False) (dispatch w true model_name mode provider kwargs).
Proof.
  intros Hp Hv.
  assert (Hclient : ∀ kw : gmap string value, kw !! "use_async" = Some v →
    (extract_client_kwargs google_client_keys kw).2 !! "use_async" = Some v).
  { intros kw Hkw.
    destruct (extract_google_other kw "use_async") as [_ ->]; [|done].
    not_client_key. }
  repeat (apply elem_of_cons in Hp as [->|Hp]); [..|by apply elem_of_nil in Hp];
    unfold dispatch; cbv beta iota delta [String.eqb Ascii.eqb Bool.eqb];
    open_branch; repeat returns_step;
    try match goal with
      | E : extract_client_kwargs _ _ = (_, _) |- _ =>
          apply (f_equal snd) in E; cbn [snd] in E
      end;
    match goal with
    | Hdup : duplicate_keyword _ ?kw = None |- _ =>
        assert (Hnone : kw !! "use_async" = None)
          by (apply (duplicate_keyword_None _ _ _ Hdup); cbn;
              rewrite !elem_of_cons; tauto)
    end;
    try subst; revert Hnone;
    rewrite ?Hclient by (by rewrite !lookup_delete_ne);
    rewrite ?lookup_insert_ne, ?lookup_delete_ne, ?Hv by done;
    done.
Qed.

(** An async call to google, generative-ai, mistral or vertexai whose
    keyword arguments hold [use_async] never returns a client: the branch
    passes [use_async=True] itself, so the call of the adapter factory would
    give that keyword twice. *)
Theorem duplicate_use_async_never_returns w p m cache mode
    (kwargs : gmap string value) v call :
  p ∈ ["google"; "generative-ai"; "mistral"; "vertexai"] →
  kwargs !! "use_async" = Some v →
  outcome (from_provider w (p ++ "/" ++ m) true cache mode kwargs) ≠ Ok call.
Proof.
  intros Hp Hv Hout.
  assert (Hsep : contains "/" p = false).
  { repeat (apply elem_of_cons in Hp as [->|Hp]); try reflexivity.
    by apply elem_of_nil in Hp. }
  rewrite from_provider_first in Hout by done.
  eapply (dispatch_duplicate_use_async _ _ _ _ _ v Hp); [|exact Hout].
  by rewrite with_cache_lookup_ne.
Qed.

Lemma duplicate_use_async_never_returns_witness :
  "google" ∈ ["google"; "generative-ai"; "mistral"; "vertexai"] ∧
  ({["use_async" := VBool true]} : gmap string value) !! "use_async"
    = Some (VBool true) ∧
  ∀ call,
    outcome (from_provider
               (World all_installed {["GOOGLE_API_KEY" := "env-key"]})
               ("google" ++ "/" ++ "gemini-pro") true VNone None
               {["use_async" := VBool true]}) ≠ Ok call.
Proof.
  assert (Hp : "google" ∈ ["google"; "generative-ai"; "mistral"; "vertexai"])
    by (apply elem_of_cons; by left).
  assert (Hv : ({["use_async" := VBool true]} : gmap string value)
                 !! "use_async" = Some (VBool true)) by reflexivity.
  split; [exact Hp|]. split; [exact Hv|]. intros call.
  exact (duplicate_use_async_never_returns _ "google" "gemini-pro" VNone None
           _ (VBool true) call Hp Hv).
Defined.
